(** * configure.py: the musl cross-toolchain build-plan generator

    A shallow embedding of [src/configure.py]: the [Args] record built from
    the parsed command line, the tool discovery step [Args.try_get_tools],
    the patch lookup [Patch] and the emission of [build.ninja] by
    [Args.ninja], recorded as the sequence of calls made on the
    [ninja_syntax.Writer]. *)

From Stdlib Require Import String Ascii List Bool Arith Lia DecimalString.
Import ListNotations.
Open Scope list_scope.
Open Scope string_scope.

(** ** Python string primitives used by the script *)

Module Py.

(** The double quote character, for command templates that contain it. *)
Definition dq : string := String (ascii_of_nat 34) EmptyString.

(** [s.startswith(p)] *)
Definition startswith (s p : string) : bool := String.prefix p s.

(** [s.endswith(p)] *)
Definition endswith (s p : string) : bool :=
  let n := String.length s in
  let m := String.length p in
  (m <=? n)%nat && String.eqb (String.substring (n - m) m s) p.

(** [sub in s] *)
Fixpoint contains (sub s : string) : bool :=
  String.prefix sub s ||
  match s with
  | EmptyString => false
  | String _ s' => contains sub s'
  end.

(** [s.split(sep)] for a non-empty separator: the pieces between the
    non-overlapping occurrences of [sep], found from the left.  [skip]
    counts the characters of an occurrence still to be dropped. *)
Fixpoint split_go (sep s : string) (skip : nat) : string * list string :=
  match s with
  | EmptyString => (EmptyString, [])
  | String c s' =>
      match skip with
      | S k => split_go sep s' k
      | O =>
          if String.prefix sep s
          then let '(p, ps) := split_go sep s' (String.length sep - 1) in
               (EmptyString, p :: ps)
          else let '(p, ps) := split_go sep s' 0 in
               (String c p, ps)
      end
  end.

Definition split (s sep : string) : list string :=
  let '(p, ps) := split_go sep s 0 in p :: ps.

(** [s.replace(old, new)] for a non-empty [old]. *)
Fixpoint replace_go (old new s : string) (skip : nat) : string :=
  match s with
  | EmptyString => EmptyString
  | String c s' =>
      match skip with
      | S k => replace_go old new s' k
      | O =>
          if String.prefix old s
          then new ++ replace_go old new s' (String.length old - 1)
          else String c (replace_go old new s' 0)
      end
  end.

Definition replace (s old new : string) : string := replace_go old new s 0.

Fixpoint char_in (c : ascii) (chars : string) : bool :=
  match chars with
  | EmptyString => false
  | String d chars' => Ascii.eqb c d || char_in c chars'
  end.

(** [s.lstrip(chars)] *)
Fixpoint lstrip (s chars : string) : string :=
  match s with
  | EmptyString => EmptyString
  | String c s' => if char_in c chars then lstrip s' chars else s
  end.

(** [sep.join(l)] *)
Definition join (sep : string) (l : list string) : string :=
  String.concat sep l.

(** Truth value of an [Optional[str]]: [None] and the empty string are
    false. *)
Definition truthy (o : option string) : bool :=
  match o with
  | Some (String _ _) => true
  | _ => false
  end.

(** [str(n)] for an [Optional[int]] that is a natural number or [None]. *)
Definition str_opt_nat (o : option nat) : string :=
  match o with
  | Some n => NilZero.string_of_uint (Nat.to_uint n)
  | None => "None"
  end.

(** [x in l] for a list of strings. *)
Definition mem (x : string) (l : list string) : bool :=
  existsb (String.eqb x) l.

End Py.

(** ** The parsed command line and the [Args] object *)

(** The [argparse.Namespace] handed to [Args.__init__].  Options whose
    default is [None] are optional strings. *)
Record Namespace := mkNamespace {
  arg_no_patches : bool;
  arg_prefix : string;
  arg_host : option string;
  arg_target : string;
  arg_cc : string;
  arg_cxx : string;
  arg_cc_build : string;
  arg_cxx_build : string;
  arg_cc_flags : option string;
  arg_cxx_flags : option string;
  arg_ld_flags : option string;
  arg_enable_cache : bool;
  arg_binutils_flags : option string;
  arg_gcc_flags : option string;
  arg_gcc_with_isl : bool;
  arg_binutils_version : string;
  arg_gcc_version : string;
  arg_gmp_version : string;
  arg_isl_version : string;
  arg_linux_version : string;
  arg_mpc_version : string;
  arg_mpfr_version : string;
  arg_musl_version : string
}.

(** The attributes of an [Args] instance. *)
Record Args := mkArgs {
  no_patches : bool;
  prefix : string;
  host : option string;
  target : string;
  cc : string;
  cxx : string;
  cc_build : string;
  cxx_build : string;
  cc_flags : option string;
  cxx_flags : option string;
  ld_flags : option string;
  enable_cache : bool;
  binutils_flags : list string;
  gcc_flags : list string;
  gcc_with_isl : bool;
  binutils_version : string;
  gcc_version : string;
  gmp_version : string;
  isl_version : string;
  linux_version : string;
  mpc_version : string;
  mpfr_version : string;
  musl_version : string;
  _make : string
}.

(** [list.append(x)] under a condition: the list grows at its end. *)
Definition append_if (c : bool) (x : string) (l : list string) : list string :=
  if c then l ++ [x] else l.

(** [if flags: l.extend(flags.split(" "))] *)
Definition extend_split (flags : option string) (l : list string) : list string :=
  match flags with
  | Some f => if Py.truthy flags then l ++ Py.split f " " else l
  | None => l
  end.

Definition binutils_base_flags : list string :=
  [ "--disable-separate-code";
    "--disable-werror";
    "--target=$target";
    "--prefix=";
    "--libdir=/lib";
    "--disable-multilib";
    "--with-sysroot=/$target";
    "--enable-deterministic-archives" ].

Definition gcc_base_flags : list string :=
  [ "--enable-languages=c,c++";
    "--disable-bootstrap";
    "--disable-werror";
    "--target=$target";
    "--prefix=";
    "--libdir=/lib";
    "--disable-multilib";
    "--with-sysroot=/$target";
    "--enable-tls";
    "--disable-libmudflap";
    "--disable-libsanitizer";
    "--disable-gnu-indirect-function";
    "--disable-libmpx";
    "--enable-initfini-array";
    "--enable-libstdcxx-time=rt";
    "--with-build-sysroot=$build_sysroot_dir" ].

(** [self.binutils_flags] as [Args.__init__] leaves it (lines 65-80). *)
Definition init_binutils_flags (args : Namespace) : list string :=
  let fl := binutils_base_flags in
  let fl := append_if (Py.truthy (arg_host args)) "--host=$host" fl in
  extend_split (arg_binutils_flags args) fl.

(** The [mips64]/[mipsisa64] block of [Args.__init__] (lines 113-117). *)
Definition append_mips_abi (t : string) (l : list string) : list string :=
  if Py.contains "mips64" t || Py.contains "mipsisa64" t
  then if Py.contains "n32" t
       then l ++ ["--with-abi=n32"]
       else l ++ ["--with-abi=64"]
  else l.

(** The [sf]/[hf] block of [Args.__init__] (lines 122-125). *)
Definition append_float_abi (t : string) (l : list string) : list string :=
  if Py.endswith t "sf" then l ++ ["--with-float=soft"]
  else if Py.endswith t "hf" then l ++ ["--with-float=hard"]
  else l.

(** [self.gcc_flags] as [Args.__init__] leaves it (lines 82-128): the
    statements of the constructor in their order. *)
Definition init_gcc_flags (args : Namespace) : list string :=
  let t := arg_target args in
  let fl := gcc_base_flags in
  let fl := append_if (Py.truthy (arg_host args)) "--host=$host" fl in
  let fl := append_if (Py.contains "fdpic" t) "--enable-fdpic" fl in
  let fl := append_if (Py.startswith t "x86_64" && Py.endswith t "x32")
                      "--with-abi=x32" fl in
  let fl := append_if (Py.contains "powerpc64" t) "--with-abi=elfv2" fl in
  let fl := append_mips_abi t fl in
  let fl := append_if (Py.contains "s390x" t) "--with-long-double-128" fl in
  let fl := append_float_abi t fl in
  extend_split (arg_gcc_flags args) fl.

(** [Args.__init__] *)
Definition Args_init (args : Namespace) : Args :=
  {| no_patches := arg_no_patches args;
     prefix := arg_prefix args;
     host := arg_host args;
     target := arg_target args;
     cc := arg_cc args;
     cxx := arg_cxx args;
     cc_build := arg_cc_build args;
     cxx_build := arg_cxx_build args;
     cc_flags := arg_cc_flags args;
     cxx_flags := arg_cxx_flags args;
     ld_flags := arg_ld_flags args;
     enable_cache := arg_enable_cache args;
     binutils_flags := init_binutils_flags args;
     gcc_flags := init_gcc_flags args;
     gcc_with_isl := arg_gcc_with_isl args;
     binutils_version := arg_binutils_version args;
     gcc_version := arg_gcc_version args;
     gmp_version := arg_gmp_version args;
     isl_version := arg_isl_version args;
     linux_version := arg_linux_version args;
     mpc_version := arg_mpc_version args;
     mpfr_version := arg_mpfr_version args;
     musl_version := arg_musl_version args;
     _make := "make" |}.

(** [Args.is_cross] *)
Definition is_cross (a : Args) : bool :=
  match host a with
  | None => true
  | Some _ => false
  end.

(** The command line [--target t], with [--host h] and [--gcc-with-isl]
    when given, and every other option at its [argparse] default (lines
    913-1039). *)
Definition command_line (t : string) (h : option string) (isl : bool)
  : Namespace :=
  {| arg_no_patches := false;
     arg_prefix := "$root_dir/toolchain";
     arg_host := h;
     arg_target := t;
     arg_cc := "$host-gcc";
     arg_cxx := "$host-g++";
     arg_cc_build := "gcc";
     arg_cxx_build := "g++";
     arg_cc_flags := None;
     arg_cxx_flags := None;
     arg_ld_flags := None;
     arg_enable_cache := false;
     arg_binutils_flags := None;
     arg_gcc_flags := None;
     arg_gcc_with_isl := isl;
     arg_binutils_version := "2.40";
     arg_gcc_version := "13.1.0";
     arg_gmp_version := "6.2.1";
     arg_isl_version := "0.24";
     arg_linux_version := "6.3.5";
     arg_mpc_version := "1.3.1";
     arg_mpfr_version := "4.2.0";
     arg_musl_version := "1.2.4" |}.

Definition default_namespace (t : string) : Namespace :=
  command_line t None false.

(** ** The environment of a run *)

(** The script calls into the operating system through [shutil.which],
    [open], [Path.exists] and [os.listdir].  Each call is answered by the
    environment, and the last three can fail.  The writer is modelled by
    the calls made on it: what [ninja_syntax] does with the opened file
    lies outside the script. *)

(** Error codes, by name: their numbers differ from one platform to
    another.  [Errno] stands for every code without a name here. *)
Inductive errno :=
| ENOENT
| ENOTDIR
| EBADF
| ELOOP
| EACCES
| EISDIR
| ENAMETOOLONG
| Errno (symbol : string).

(** The exceptions of the file-system calls: [OSError] with its [errno]
    and, on Windows, its [winerror]; and the [ValueError] of a path that
    cannot be encoded. *)
Inductive exn :=
| OSError (code : errno) (winerror : option nat)
| ValueError.

(** The subclasses of [OSError] Python picks by error code. *)
Definition FileNotFoundError : exn := OSError ENOENT None.
Definition NotADirectoryError : exn := OSError ENOTDIR None.
Definition IsADirectoryError : exn := OSError EISDIR None.
Definition PermissionError : exn := OSError EACCES None.

(** The answers of the file system. *)
Record Files := mkFiles {
  stat : string -> option exn;             (* [os.stat(path)]: what it raises, if anything *)
  os_listdir : string -> exn + list string; (* [os.listdir(path)] *)
  open_w : string -> option exn            (* [open(path, "w")]: what it raises, if anything *)
}.

(** The parts of the machine the script reads. *)
Record Env := mkEnv {
  which : string -> option string;  (* [shutil.which] *)
  fs : Files;                       (* the file system *)
  cpu_count : option nat;           (* [os.cpu_count()] *)
  platform_system : string;         (* [platform.system()] *)
  cwd : string                      (* [Path(".").absolute()] *)
}.

(** [pathlib], Python 3.11: the errors [Path.exists] takes for a path
    that is not there. *)
Definition _IGNORED_ERRNOS : list errno := [ENOENT; ENOTDIR; EBADF; ELOOP].

Definition _IGNORED_WINERRORS : list nat := [21; 123; 1921].

Definition errno_eqb (x y : errno) : bool :=
  match x, y with
  | ENOENT, ENOENT | ENOTDIR, ENOTDIR | EBADF, EBADF | ELOOP, ELOOP
  | EACCES, EACCES | EISDIR, EISDIR | ENAMETOOLONG, ENAMETOOLONG => true
  | Errno s, Errno t => String.eqb s t
  | _, _ => false
  end.

Definition _ignore_error (code : errno) (winerror : option nat) : bool :=
  existsb (errno_eqb code) _IGNORED_ERRNOS
  || match winerror with
     | Some w => existsb (Nat.eqb w) _IGNORED_WINERRORS
     | None => false
     end.

(** [Path(p).exists()]: [stat] is tried; an [OSError] is re-raised unless
    [_ignore_error] holds of it, and a [ValueError] means [False]. *)
Definition Path_exists (env : Env) (p : string) : exn + bool :=
  match stat (fs env) p with
  | None => inr true
  | Some (OSError code winerror) =>
      if _ignore_error code winerror then inr false
      else inl (OSError code winerror)
  | Some ValueError => inr false
  end.

(** ** Tool discovery: [Args.try_get_tools] *)

(** The method mutates [self] and prints; both are threaded as state. *)
Record tool_state := mkToolState {
  self : Args;
  stdout : list string
}.

Definition M (A : Type) : Type := tool_state -> A * tool_state.

Definition ret {A} (x : A) : M A := fun st => (x, st).

Definition bind {A B} (c : M A) (k : A -> M B) : M B :=
  fun st => let '(x, st') := c st in k x st'.

Notation "x <- c ;; k" := (bind c (fun x => k))
  (at level 61, c at next level, right associativity).
Notation "c ;; k" := (bind c (fun _ => k))
  (at level 61, right associativity).

(** Reading an attribute of [self]. *)
Definition attr {A} (f : Args -> A) : M A := fun st => (f (self st), st).

Definition print (line : string) : M unit :=
  fun st => (tt, {| self := self st; stdout := stdout st ++ [line] |}).

(** [self] with its five mutable attributes replaced. *)
Definition set_tools (a : Args) (cc' cxx' cc_build' cxx_build' make' : string) : Args :=
  {| no_patches := no_patches a;
     prefix := prefix a;
     host := host a;
     target := target a;
     cc := cc';
     cxx := cxx';
     cc_build := cc_build';
     cxx_build := cxx_build';
     cc_flags := cc_flags a;
     cxx_flags := cxx_flags a;
     ld_flags := ld_flags a;
     enable_cache := enable_cache a;
     binutils_flags := binutils_flags a;
     gcc_flags := gcc_flags a;
     gcc_with_isl := gcc_with_isl a;
     binutils_version := binutils_version a;
     gcc_version := gcc_version a;
     gmp_version := gmp_version a;
     isl_version := isl_version a;
     linux_version := linux_version a;
     mpc_version := mpc_version a;
     mpfr_version := mpfr_version a;
     musl_version := musl_version a;
     _make := make' |}.

Definition modify (f : Args -> Args) : M unit :=
  fun st => (tt, {| self := f (self st); stdout := stdout st |}).

Definition set_cc (v : string) : M unit :=
  modify (fun a => set_tools a v (cxx a) (cc_build a) (cxx_build a) (_make a)).
Definition set_cxx (v : string) : M unit :=
  modify (fun a => set_tools a (cc a) v (cc_build a) (cxx_build a) (_make a)).
Definition set_cc_build (v : string) : M unit :=
  modify (fun a => set_tools a (cc a) (cxx a) v (cxx_build a) (_make a)).
Definition set_cxx_build (v : string) : M unit :=
  modify (fun a => set_tools a (cc a) (cxx a) (cc_build a) v (_make a)).
Definition set_make (v : string) : M unit :=
  modify (fun a => set_tools a (cc a) (cxx a) (cc_build a) (cxx_build a) v).

(** [Args._exists]: one [shutil.which] query and one printed line. *)
Definition _exists (env : Env) (cmd msg : string) : M bool :=
  match which env cmd with
  | Some path =>
      print (msg ++ ": " ++ cmd ++ " (" ++ path ++ ")") ;; ret true
  | None =>
      print (msg ++ ": " ++ cmd ++ " (doesn't exists)") ;; ret false
  end.

(** Lines 172-175: the build compilers. *)
Definition check_build_compilers (env : Env) (failed : bool) : M bool :=
  cmd <- attr cc_build ;;
  ok <- _exists env cmd "Checking for build C compiler" ;;
  let failed := if negb ok then true else failed in
  cmd <- attr cxx_build ;;
  ok <- _exists env cmd "Checking for build C++ compiler" ;;
  let failed := if negb ok then true else failed in
  ret failed.

(** Lines 177-187: the host compilers, checked only under [if self.host]. *)
Definition resolve_host_compilers (env : Env) (failed : bool) : M bool :=
  h <- attr host ;;
  match h with
  | Some (String _ _ as h) =>
      c <- attr cc ;;
      set_cc (Py.lstrip (Py.replace c "$host" h) "-") ;;
      c <- attr cxx ;;
      set_cxx (Py.lstrip (Py.replace c "$host" h) "-") ;;
      cmd <- attr cc ;;
      ok <- _exists env cmd "Checking for host C compiler" ;;
      let failed := if negb ok then true else failed in
      cmd <- attr cxx ;;
      ok <- _exists env cmd "Checking for host C++ compiler" ;;
      let failed := if negb ok then true else failed in
      ret failed
  | _ =>
      c <- attr cc_build ;;
      set_cc c ;;
      c <- attr cxx_build ;;
      set_cxx c ;;
      ret failed
  end.

(** Lines 202-207: the wrapper, when one was found, in front of the four
    compiler commands. *)
Definition apply_wrapper (wrapper : option string) : M unit :=
  match wrapper with
  | Some w =>
      print ("Using " ++ w ++ " as compiler wrapper") ;;
      c <- attr cc ;; set_cc (w ++ " " ++ c) ;;
      c <- attr cxx ;; set_cxx (w ++ " " ++ c) ;;
      c <- attr cc_build ;; set_cc_build (w ++ " " ++ c) ;;
      c <- attr cxx_build ;; set_cxx_build (w ++ " " ++ c)
  | None => ret tt
  end.

(** Lines 189-207: the compiler cache. *)
Definition choose_cache (env : Env) : M unit :=
  enabled <- attr enable_cache ;;
  if enabled then
    ccache <- _exists env "ccache" "Checking for tool ccache" ;;
    wrapper <-
      (if ccache then ret (Some "ccache")
       else
         sccache <- _exists env "sccache" "Checking for tool sccache" ;;
         ret (if sccache then Some "sccache" else None)) ;;
    apply_wrapper wrapper
  else ret tt.

(** Lines 209-216: the make program. *)
Definition find_make (env : Env) (failed : bool) : M bool :=
  ok <- _exists env "make" "Checking for tool make" ;;
  if ok then set_make "make" ;; ret failed
  else
    ok <- _exists env "gmake" "Checking for tool gmake" ;;
    if ok then set_make "gmake" ;; ret failed
    else
      ok <- _exists env "mingw32-make" "Checking for tool mingw32-make" ;;
      if ok then set_make "mingw32-make" ;; ret failed
      else ret true.

(** Lines 218-225: the remaining tools. *)
Definition check_tools (env : Env) (failed : bool) : M bool :=
  ok <- _exists env "curl" "Checking for tool curl" ;;
  let failed := if negb ok then true else failed in
  ok <- _exists env "patch" "Checking for tool patch" ;;
  let failed := if negb ok then true else failed in
  ok <- _exists env "tar" "Checking for tool tar" ;;
  let failed := if negb ok then true else failed in
  ret failed.

(** [Args.try_get_tools]: returns [failed]. *)
Definition try_get_tools (env : Env) : M bool :=
  let failed := false in
  failed <- check_build_compilers env failed ;;
  failed <- resolve_host_compilers env failed ;;
  choose_cache env ;;
  failed <- find_make env failed ;;
  check_tools env failed.

(** ** The patch lookup: class [Patch] *)

Definition MUSL_CROSS_MAKE_COMMIT : string :=
  "fe915821b652a7fa37b34a596f47d8e20bc72338".

Record Patch := mkPatch {
  name : string;
  version : string;
  path : string
}.

(** [Patch.__init__] *)
Definition Patch_init (name version : string) : Patch :=
  {| name := name;
     version := version;
     path := "patches/musl-cross-make-" ++ MUSL_CROSS_MAKE_COMMIT
             ++ "/patches/" ++ name ++ "-" ++ version |}.

(** [Patch.exists]: [Path(self.path).exists()] *)
Definition Patch_exists (env : Env) (p : Patch) : exn + bool :=
  Path_exists env (path p).

(** [os.listdir] *)
Definition listdir (env : Env) (p : string) : exn + list string :=
  os_listdir (fs env) p.

(** [Patch.files] *)
Definition Patch_files (env : Env) (p : Patch) : exn + list string :=
  match listdir env (path p) with
  | inr entries => inr (map (fun i => path p ++ "/" ++ i) entries)
  | inl e => inl e
  end.

(** ** The calls made on the [ninja_syntax.Writer] *)

Module Writer.

(** One call, with the arguments the script passes.  A keyword the
    script leaves out is the empty list, or [None] for [pool]. *)
Inductive call :=
| variable (key : string) (value : option string)
| newline
| comment (text : string)
| rule (rule_name command description : string)
| build (outputs rule_name : string) (inputs implicit : list string)
        (pool : option string) (variables : list (string * string))
| default (paths : list string).

End Writer.
Import Writer.

Definition console : option string := Some "console".

(** [s] between double quotes. *)
Definition q (s : string) : string := Py.dq ++ s ++ Py.dq.

(** ** [Args.ninja] *)

(** Lines 234-294: the variables at the head of the file. *)
Definition ninja_variables (a : Args) (env : Env) : list call :=
  [ variable "target" (Some (target a));
    variable "host" (host a);
    newline;
    variable "cc" (Some (cc a));
    variable "cxx" (Some (cxx a)) ]
  ++ (if negb (is_cross a)
      then [ variable "cc_build" (Some (cc_build a));
             variable "cxx_build" (Some (cxx_build a)) ]
      else [])
  ++ [ variable "cc_flags" (cc_flags a);
       variable "cxx_flags" (cxx_flags a);
       variable "ld_flags" (ld_flags a);
       newline;
       variable "binutils_version" (Some (binutils_version a));
       variable "gcc_version" (Some (gcc_version a));
       variable "gmp_version" (Some (gmp_version a)) ]
  ++ (if gcc_with_isl a
      then [ variable "isl_version" (Some (isl_version a)) ]
      else [])
  ++ [ variable "linux_version" (Some (linux_version a));
       variable "mpc_version" (Some (mpc_version a));
       variable "mpfr_version" (Some (mpfr_version a));
       variable "musl_version" (Some (musl_version a));
       newline;
       variable "gnu_site" (Some "https://ftpmirror.gnu.org") ]
  ++ (if gcc_with_isl a
      then [ variable "isl_site" (Some "https://libisl.sourceforge.io") ]
      else [])
  ++ [ variable "linux_site"
         (Some "https://cdn.kernel.org/pub/linux/kernel/v6.x");
       variable "musl_site" (Some "https://www.musl-libc.org");
       newline;
       variable "download_command" (Some "curl -L -o");
       variable "make_command"
         (Some (_make a ++ " -j " ++ Py.str_opt_nat (cpu_count env)
                ++ " MULTILIB_OSDIRNAMES= INFO_DEPS= infodir= ac_cv_prog_lex_root=lex.yy"));
       newline;
       comment "edit below this line carefully";
       newline;
       variable "env_vars"
         (Some (("CC=" ++ q "$cc" ++ " CXX=" ++ q "$cxx"
                 ++ " CFLAGS=" ++ q "$cc_flags"
                 ++ " CXXFLAGS=" ++ q "$cxx_flags"
                 ++ " LDFLAGS=" ++ q "$ld_flags")
                ++ (if negb (is_cross a)
                    then " CC_FOR_BUILD=" ++ q "$cc_build"
                         ++ " CXX_FOR_BUILD=" ++ q "$cxx_build"
                    else EmptyString)));
       newline;
       variable "root_dir" (Some (cwd env));
       variable "build_dir" (Some "build");
       variable "build_sysroot_dir" (Some "$root_dir/$build_dir/sysroot");
       variable "build_targets_dir" (Some "$build_dir/targets");
       variable "download_dir" (Some "downloads");
       variable "install_dir" (Some (prefix a));
       newline;
       comment "step 1 - download, extract and patch archives";
       newline ].

(** Lines 296-301 *)
Definition download_targets (a : Args) : list string :=
  let l := ["binutils"; "gcc"; "gmp"] in
  let l := append_if (gcc_with_isl a) "isl" l in
  l ++ ["linux"; "mpc"; "mpfr"; "musl"].

(** Lines 303-320: the tarball and source-directory variables. *)
Definition tarball_variable (name : string) : call :=
  let compression := if Py.mem name ["mpc"; "musl"] then "gz" else "xz" in
  variable (name ++ "_tarball")
    (Some ("$download_dir/" ++ name ++ "-$" ++ name ++ "_version.tar." ++ compression)).

Definition dir_variable (name : string) : call :=
  variable (name ++ "_dir")
    (Some ("$build_dir/" ++ name ++ "-$" ++ name ++ "_version")).

Definition download_build (tarball url : string) : call :=
  build tarball "download-tarball" [] [] console [("url", url)].

(** Lines 303-396: the two rules of step 1 and one download per archive. *)
Definition ninja_downloads (a : Args) : list call :=
  map tarball_variable (download_targets a)
  ++ [ newline ]
  ++ map dir_variable (download_targets a)
  ++ [ newline;
       rule "download-tarball" "$download_command $out $url" "Downloading $url";
       newline;
       rule "extract-tar"
         "rm -rf $extracted_dir && tar -C $build_dir -x -$compression -f $in && cd $extracted_dir && $patch_command && touch ../../$out"
         "Extracting $in";
       newline;
       download_build "$binutils_tarball"
         "$gnu_site/binutils/binutils-$binutils_version.tar.xz";
       newline;
       download_build "$gcc_tarball"
         "$gnu_site/gcc/gcc-$gcc_version/gcc-$gcc_version.tar.xz";
       newline;
       download_build "$gmp_tarball" "$gnu_site/gmp/gmp-$gmp_version.tar.xz" ]
  ++ (if gcc_with_isl a
      then [ newline;
             download_build "$isl_tarball" "$isl_site/isl-$isl_version.tar.xz" ]
      else [])
  ++ [ newline;
       download_build "$linux_tarball" "$linux_site/linux-$linux_version.tar.xz";
       newline;
       download_build "$mpc_tarball" "$gnu_site/mpc/mpc-$mpc_version.tar.gz";
       newline;
       download_build "$mpfr_tarball" "$gnu_site/mpfr/mpfr-$mpfr_version.tar.xz";
       newline;
       download_build "$musl_tarball" "$musl_site/releases/musl-$musl_version.tar.gz";
       newline ].

(** Lines 398-412 *)
Definition name_version_tuples (a : Args) : list (string * string) :=
  let l := [ ("binutils", binutils_version a);
             ("gcc", gcc_version a);
             ("gmp", gmp_version a) ] in
  let l := if gcc_with_isl a then (l ++ [("isl", isl_version a)])%list else l in
  (l ++ [ ("linux", linux_version a);
          ("mpc", mpc_version a);
          ("mpfr", mpfr_version a);
          ("musl", musl_version a) ])%list.

(** Lines 416-431: the patch command of one archive.  [Patch.exists] may
    raise; [Patch.files] is called only behind it, and may raise too. *)
Definition patch_command_for (a : Args) (env : Env) (name version : string)
  : exn + string :=
  if negb (no_patches a) then
    let patch := Patch_init name version in
    match Patch_exists env patch with
    | inl e => inl e
    | inr true =>
        match Patch_files env patch with
        | inl e => inl e
        | inr files =>
            let patch_command :=
              fold_left
                (fun cmd patch_file => cmd ++ " -i ../../" ++ patch_file)
                files "patch -p 1" in
            inr (if String.eqb patch_command "patch -p 1"
                 then "true" else patch_command)
        end
    | inr false => inr "true"
    end
  else inr "true".

(** Lines 433-443: the extract statement of one archive. *)
Definition extract_build (name patch_command : string) : list call :=
  let compression := if Py.mem name ["mpc"; "musl"] then "x" else "J" in
  [ build ("$build_targets_dir/extract-" ++ name) "extract-tar"
      ["$" ++ name ++ "_tarball"] [] None
      [ ("compression", compression);
        ("extracted_dir", "$" ++ name ++ "_dir");
        ("patch_command", patch_command) ];
    newline ].

(** Lines 414-443: the loop over the archives.  An exception ends the run
    with what was written so far. *)
Fixpoint extract_loop (a : Args) (env : Env) (l : list (string * string))
  : list call * option exn :=
  match l with
  | [] => ([], None)
  | (name, version) :: rest =>
      match patch_command_for a env name version with
      | inl e => ([], Some e)
      | inr patch_command =>
          let '(written, raised) := extract_loop a env rest in
          ((extract_build name patch_command ++ written)%list, raised)
      end
  end.

(** A build statement in the console pool with implicit dependencies
    only: the form of every statement of steps 2 to 11. *)
Definition step_build (output rule_name : string) (implicit : list string) : call :=
  build output rule_name [] implicit console [].

(** Lines 445-487: step 2, binutils. *)
Definition ninja_binutils (a : Args) : list call :=
  [ comment "step 2 - build binutils";
    newline;
    variable "binutils_dir" (Some "$build_dir/binutils-build");
    newline;
    rule "configure-binutils"
      ("rm -rf $binutils_dir && mkdir $binutils_dir && cd $binutils_dir && $env_vars ../binutils-$binutils_version/configure "
       ++ Py.join " " (binutils_flags a) ++ " && touch ../../$out")
      "Configuring binutils $binutils_version";
    newline;
    rule "build-binutils"
      "cd $binutils_dir && $env_vars $make_command all && touch ../../$out"
      "Building binutils $binutils_version";
    newline;
    rule "install-binutils"
      "cd $binutils_dir && $env_vars $make_command install DESTDIR=$install_dir && touch ../../$out"
      "Installing binutils $binutils_version";
    newline;
    step_build "$build_targets_dir/configure-binutils" "configure-binutils"
      ["$build_targets_dir/extract-binutils"];
    newline;
    step_build "$build_targets_dir/build-binutils" "build-binutils"
      ["$build_targets_dir/configure-binutils"];
    newline;
    step_build "$build_targets_dir/install-binutils" "install-binutils"
      ["$build_targets_dir/build-binutils"];
    newline ].

(** Lines 496-501 *)
Definition move_targets (a : Args) : list string :=
  let l := ["gmp"] in
  let l := append_if (gcc_with_isl a) "isl" l in
  l ++ ["mpc"; "mpfr"].

(** Lines 505-514: the statements of one relocation. *)
Definition move_build (name : string) : list call :=
  [ newline;
    build ("$build_targets_dir/move-" ++ name) "move-directory"
      [] ["$build_targets_dir/extract-" ++ name] None
      [ ("src_dir", "$" ++ name ++ "_dir");
        ("dst_dir", "$gcc_dir/" ++ name) ] ].

(** Line 515: what the loop collects in [build_targets_move]. *)
Definition build_targets_move (a : Args) : list string :=
  map (fun name => "$build_targets_dir/move-" ++ name) (move_targets a).

(** Lines 521-536 *)
Definition gcc_vars (a : Args) : list string :=
  if is_cross a then
    [ "AR_FOR_TARGET=" ++ q "$root_dir/$binutils_dir/binutils/ar";
      "AS_FOR_TARGET=" ++ q "$root_dir/$binutils_dir/gas/as-new";
      "LD_FOR_TARGET=" ++ q "$root_dir/$binutils_dir/ld/ld-new";
      "NM_FOR_TARGET=" ++ q "$root_dir/$binutils_dir/binutils/nm-new";
      "OBJCOPY_FOR_TARGET=" ++ q "$root_dir/$binutils_dir/binutils/objcopy";
      "OBJDUMP_FOR_TARGET=" ++ q "$root_dir/$binutils_dir/binutils/objdump";
      "RANLIB_FOR_TARGET=" ++ q "$root_dir/$binutils_dir/binutils/ranlib";
      "READELF_FOR_TARGET=" ++ q "$root_dir/$binutils_dir/binutils/readelf";
      "STRIP_FOR_TARGET=" ++ q "$root_dir/$binutils_dir/binutils/strip-new" ]
  else [].

(** Lines 545-547: the implicit dependencies of the gcc configure
    statement. *)
Definition configure_gcc_implicit (a : Args) : list string :=
  let implicit := ["$build_targets_dir/extract-gcc"] in
  let implicit := (implicit ++ build_targets_move a)%list in
  (implicit ++ ["$build_targets_dir/build-binutils"])%list.

(** Lines 488-555: step 3, the relocations and the gcc configure. *)
Definition ninja_configure_gcc (a : Args) : list call :=
  [ comment "step 3 - configure gcc";
    newline;
    rule "move-directory" "rm -rf $dst_dir && mv $src_dir $dst_dir && touch $out"
      "Moving $src_dir -> $dst_dir" ]
  ++ flat_map move_build (move_targets a)
  ++ [ newline;
       variable "gcc_dir" (Some "$build_dir/gcc-build");
       newline;
       rule "configure-gcc"
         ("rm -rf $build_sysroot_dir && mkdir -p $build_sysroot_dir/usr/include && rm -rf $gcc_dir && mkdir $gcc_dir && cd $gcc_dir && $env_vars ../gcc-$gcc_version/configure "
          ++ Py.join " " (gcc_flags a) ++ " " ++ Py.join " " (gcc_vars a)
          ++ " && touch ../../$out")
         "Configuring gcc $gcc_version";
       newline;
       step_build "$build_targets_dir/configure-gcc" "configure-gcc"
         (configure_gcc_implicit a);
       newline ].

(** Lines 556-570: step 4. *)
Definition ninja_build_gcc_all_gcc : list call :=
  [ comment "step 4 - build gcc (all-gcc)";
    newline;
    rule "build-gcc-all-gcc"
      "cd $gcc_dir && $env_vars $make_command all-gcc && touch ../../$out"
      "Building gcc $gcc_version (all-gcc)";
    newline;
    step_build "$build_targets_dir/build-gcc-all-gcc" "build-gcc-all-gcc"
      ["$build_targets_dir/configure-gcc"];
    newline ].

(** Lines 575-607: the environment of the musl configure command. *)
Definition musl_configure_env_vars (a : Args) (env : Env) : list string :=
  let l := [ "LIBCC=" ++ q "$root_dir/$gcc_dir/$target/libgcc/libgcc.a" ] in
  if is_cross a then
    let host_exe_suffix :=
      if String.eqb (platform_system env) "Windows" then ".exe" else EmptyString in
    app l [ "CC=" ++ q ("$root_dir/$gcc_dir/gcc/xgcc" ++ host_exe_suffix
                        ++ " -B $root_dir/$gcc_dir/gcc") ]
  else
    app l [ "CC=${target}-gcc"; "CROSS_COMPILE=${target}-" ].

Definition musl_flags : list string := [ "--prefix="; "--host=$target" ].

Definition musl_vars (a : Args) : list string :=
  if is_cross a then
    [ "AR=" ++ q "$root_dir/$binutils_dir/binutils/ar";
      "RANLIB=" ++ q "$root_dir/$binutils_dir/binutils/ranlib" ]
  else
    [ "AR=${target}-ar"; "RANLIB=${target}-ranlib" ].

(** The command of the [configure-musl] rule (line 613). *)
Definition configure_musl_command (a : Args) (env : Env) : string :=
  "rm -rf $musl_dir && mkdir $musl_dir && cd $musl_dir && $env_vars "
  ++ Py.join " " (musl_configure_env_vars a env)
  ++ " ../musl-$musl_version/configure " ++ Py.join " " musl_flags
  ++ " && touch ../../$out".

(** Lines 571-641: steps 5 and 6. *)
Definition ninja_configure_musl (a : Args) (env : Env) : list call :=
  [ comment "step 5 - configure musl";
    newline;
    variable "musl_dir" (Some "$build_dir/musl-build");
    newline;
    rule "configure-musl" (configure_musl_command a env)
      "Configuring musl $musl_version";
    newline;
    step_build "$build_targets_dir/configure-musl" "configure-musl"
      [ "$build_targets_dir/extract-musl";
        "$build_targets_dir/build-gcc-all-gcc" ];
    newline;
    comment "step 6 - install musl (headers)";
    newline;
    rule "install-musl-headers-dep"
      "cd $musl_dir && $env_vars $make_command install-headers prefix=/usr DESTDIR=$build_sysroot_dir && touch ../../$out"
      "Configuring musl $musl_version";
    newline;
    step_build "$build_targets_dir/install-musl-headers-dep"
      "install-musl-headers-dep" ["$build_targets_dir/configure-musl"];
    newline ].

(** Lines 642-697: steps 7 and 8. *)
Definition ninja_build_musl (a : Args) : list call :=
  [ comment "step 7 - build gcc (libgcc.a)";
    newline;
    rule "build-gcc-libgcc-static"
      "cd $gcc_dir && $env_vars $make_command enable_shared=no all-target-libgcc && touch ../../$out"
      "Building gcc $gcc_version (libgcc.a)";
    newline;
    step_build "$build_targets_dir/build-gcc-libgcc-static"
      "build-gcc-libgcc-static" ["$build_targets_dir/install-musl-headers-dep"];
    newline;
    comment "step 8 - build musl";
    newline;
    rule "build-musl"
      ("cd $musl_dir && $env_vars $make_command " ++ Py.join " " (musl_vars a)
       ++ " && touch ../../$out")
      "Building musl $musl_version";
    newline;
    rule "install-musl-dep"
      "cd $musl_dir && $env_vars $make_command install prefix=/usr DESTDIR=$build_sysroot_dir && touch ../../$out"
      "Installing musl $musl_version at $build_sysroot_dir";
    newline;
    rule "install-musl"
      "cd $musl_dir && $env_vars $make_command install DESTDIR=$install_dir/$target && touch ../../$out"
      "Installing musl $musl_version";
    newline;
    step_build "$build_targets_dir/build-musl" "build-musl"
      ["$build_targets_dir/build-gcc-libgcc-static"];
    newline;
    step_build "$build_targets_dir/install-musl-dep" "install-musl-dep"
      ["$build_targets_dir/build-musl"];
    newline;
    step_build "$build_targets_dir/install-musl" "install-musl"
      ["$build_targets_dir/build-musl"];
    newline ].

(** Lines 698-754: steps 9 and 10. *)
Definition ninja_build_gcc : list call :=
  [ comment "step 9 - build gcc (libgcc.so)";
    newline;
    rule "clean-gcc-libgcc-static"
      "cd $gcc_dir && $env_vars $make_command -C $target/libgcc distclean && touch ../../$out"
      "Cleaning gcc $gcc_version (libgcc.a)";
    newline;
    rule "build-gcc-libgcc-shared"
      "cd $gcc_dir && $env_vars $make_command enable_shared=yes all-target-libgcc && touch ../../$out"
      "Building gcc $gcc_version (libgcc.so)";
    newline;
    step_build "$build_targets_dir/clean-gcc-libgcc-static"
      "clean-gcc-libgcc-static" ["$build_targets_dir/install-musl-dep"];
    newline;
    step_build "$build_targets_dir/build-gcc-libgcc-shared"
      "build-gcc-libgcc-shared" ["$build_targets_dir/clean-gcc-libgcc-static"];
    newline;
    comment "step 10 - build gcc";
    newline;
    rule "build-gcc" "cd $gcc_dir && $env_vars $make_command && touch ../../$out"
      "Building gcc $gcc_version";
    newline;
    rule "install-gcc"
      "cd $gcc_dir && $env_vars $make_command install DESTDIR=$install_dir && touch ../../$out"
      "Installing gcc $gcc_version";
    newline;
    step_build "$build_targets_dir/build-gcc" "build-gcc"
      ["$build_targets_dir/build-gcc-libgcc-shared"];
    newline;
    step_build "$build_targets_dir/install-gcc" "install-gcc"
      ["$build_targets_dir/build-gcc"];
    newline ].

(** Lines 760-785: the kernel architecture of a target.  [arch] starts as
    the first hyphen-separated component and is reassigned by the first
    branch of the chain that applies, if any. *)
Definition kernel_arch (target : string) : string :=
  let arch := hd EmptyString (Py.split target "-") in
  if Py.startswith arch "aarch64" then "arm64"
  else if Py.startswith arch "arm" then "arm"
  else if Py.startswith arch "i" && Py.endswith arch "86" then "x86"
  else if Py.startswith arch "microblaze" then "microblaze"
  else if Py.startswith arch "mips" then "mips"
  else if Py.startswith arch "or1k" then "openrisc"
  else if Py.startswith arch "powerpc" then "powerpc"
  else if Py.startswith arch "riscv" then "riscv"
  else if Py.startswith arch "s390" then "s390"
  else if Py.startswith arch "s390" then "s390"
  else if Py.startswith arch "sh" then "sh"
  else if Py.startswith arch "x86_64" then "x86_64"
  else arch.

(** Lines 755-814: step 11, the kernel headers. *)
Definition ninja_linux (a : Args) : list call :=
  [ comment "step 11 - install linux (headers)";
    newline;
    variable "arch" (Some (kernel_arch (target a)));
    newline;
    rule "build-linux"
      "cd $linux_dir && $env_vars $make_command mrproper ARCH=$arch && touch ../../$out"
      "Building linux $linux_version";
    newline;
    rule "install-linux"
      "rm -rf $build_dir/linux-build && mkdir $build_dir/linux-build && cd $linux_dir && $env_vars $make_command headers_install O=$root_dir/$build_dir/linux-build ARCH=$arch INSTALL_HDR_PATH=$install_dir/$target && touch ../../$out"
      "Installing linux $linux_version";
    newline;
    step_build "$build_targets_dir/build-linux" "build-linux"
      ["$build_targets_dir/extract-linux"];
    newline;
    step_build "$build_targets_dir/install-linux" "install-linux"
      ["$build_targets_dir/build-linux"];
    newline ].

(** Lines 815-862: the clean, install and default targets. *)
Definition ninja_targets : list call :=
  [ comment "clean targets";
    newline;
    rule "delete-directory" "rm -rf $in" "Deleting $in";
    newline;
    rule "clean-all" "true" "Cleaned everything";
    newline;
    build "clean-build" "delete-directory" ["$build_dir"] [] None [];
    build "clean-downloads" "delete-directory" ["$download_dir"] [] None [];
    build "clean" "clean-all" [] ["clean-build"; "clean-downloads"] None [];
    newline;
    comment "install targets";
    newline;
    rule "install-all" "true" "Installed toolchain at $install_dir";
    newline;
    build "install" "install-all" []
      [ "$build_targets_dir/install-binutils";
        "$build_targets_dir/install-gcc";
        "$build_targets_dir/install-musl";
        "$build_targets_dir/install-linux" ] None [];
    newline;
    comment "default targets";
    newline;
    default [ "$build_targets_dir/build-gcc";
              "$build_targets_dir/build-linux" ] ].

(** Lines 445-862: everything written after the extract loop. *)
Definition ninja_steps (a : Args) (env : Env) : list call :=
  ninja_binutils a
  ++ ninja_configure_gcc a
  ++ ninja_build_gcc_all_gcc
  ++ ninja_configure_musl a env
  ++ ninja_build_musl a
  ++ ninja_build_gcc
  ++ ninja_linux a
  ++ ninja_targets.

(** [Args.ninja]: the calls made on the writer, and the exception that
    ended the run if one was raised.  When [open] raises (line 232) there
    is no writer and no call. *)
Definition ninja (a : Args) (env : Env) : list call * option exn :=
  match open_w (fs env) "build.ninja" with
  | Some e => ([], Some e)
  | None =>
      let head := (ninja_variables a env ++ ninja_downloads a)%list in
      match extract_loop a env (name_version_tuples a) with
      | (written, Some e) => ((head ++ written)%list, Some e)
      | (written, None) => ((head ++ written ++ ninja_steps a env)%list, None)
      end
  end.

(** ** The action graph read off the writer calls *)

(** The dependency edges of the build statements: from each output to each
    of its inputs and implicit dependencies, in the order written. *)
Definition call_edges (c : call) : list (string * string) :=
  match c with
  | build out _ inputs implicit _ _ => map (pair out) (inputs ++ implicit)
  | _ => []
  end.

Definition edges (g : list call) : list (string * string) :=
  flat_map call_edges g.

(** The outputs of the build statements. *)
Definition call_nodes (c : call) : list string :=
  match c with
  | build out _ _ _ _ _ => [out]
  | _ => []
  end.

Definition nodes (g : list call) : list string := flat_map call_nodes g.

(** What the statements that build [out] depend on. *)
Definition dependencies (g : list call) (out : string) : list string :=
  map snd (filter (fun e => String.eqb (fst e) out) (edges g)).

(** The paths handed to [writer.default]. *)
Definition call_defaults (c : call) : list string :=
  match c with
  | default paths => paths
  | _ => []
  end.

Definition defaults (g : list call) : list string := flat_map call_defaults g.

(** The commands of the rules called [rule_name]. *)
Definition call_rule_command (rule_name : string) (c : call) : list string :=
  match c with
  | rule n command _ => if String.eqb n rule_name then [command] else []
  | _ => []
  end.

Definition rule_commands (g : list call) (rule_name : string) : list string :=
  flat_map (call_rule_command rule_name) g.

(** The values written for the variable [key]. *)
Definition call_variable (key : string) (c : call) : list (option string) :=
  match c with
  | variable k v => if String.eqb k key then [v] else []
  | _ => []
  end.

Definition variable_values (g : list call) (key : string) : list (option string) :=
  flat_map (call_variable key) g.

(** [x] depends on [y], directly. *)
Definition depends (g : list call) (x y : string) : Prop := In (x, y) (edges g).

(** A dependency path: zero or more direct dependencies in a row. *)
Inductive dep_path (g : list call) : string -> string -> Prop :=
| dep_here : forall x, dep_path g x x
| dep_step : forall x y z, depends g x y -> dep_path g y z -> dep_path g x z.

(** Every edge that leaves the set [s] of names ends in it. *)
Definition closed_under (s : string -> bool) (es : list (string * string)) : bool :=
  forallb (fun e => negb (s (fst e)) || s (snd e)) es.

(** ** The documented tables, as the specification words them *)

(** A row of the kernel-architecture table: [prefix*], or [i*86]. *)
Inductive arch_pattern :=
| Prefix (p : string)
| PrefixSuffix (p s : string).

Definition arch_matches (pat : arch_pattern) (arch : string) : bool :=
  match pat with
  | Prefix p => Py.startswith arch p
  | PrefixSuffix p s => Py.startswith arch p && Py.endswith arch s
  end.

(** The table of section 4.1, in its documented order. *)
Definition kernel_arch_table : list (arch_pattern * string) :=
  [ (Prefix "aarch64", "arm64");
    (Prefix "arm", "arm");
    (PrefixSuffix "i" "86", "x86");
    (Prefix "microblaze", "microblaze");
    (Prefix "mips", "mips");
    (Prefix "or1k", "openrisc");
    (Prefix "powerpc", "powerpc");
    (Prefix "riscv", "riscv");
    (Prefix "s390", "s390");
    (Prefix "sh", "sh");
    (Prefix "x86_64", "x86_64") ].

(** First matching row wins. *)
Fixpoint table_lookup (tbl : list (arch_pattern * string)) (arch : string)
  : option string :=
  match tbl with
  | [] => None
  | (pat, k) :: tbl' =>
      if arch_matches pat arch then Some k else table_lookup tbl' arch
  end.

(** The first hyphen-separated component of a triple. *)
Definition first_component (triple : string) : string :=
  hd EmptyString (Py.split triple "-").

(** The segments of the compiler's flag list. *)
Definition host_flag (args : Namespace) : list string :=
  if Py.truthy (arg_host args) then ["--host=$host"] else [].

Definition fdpic_flag (t : string) : list string :=
  if Py.contains "fdpic" t then ["--enable-fdpic"] else [].

Definition x32_flag (t : string) : list string :=
  if Py.startswith t "x86_64" && Py.endswith t "x32" then ["--with-abi=x32"] else [].

Definition ppc64_flag (t : string) : list string :=
  if Py.contains "powerpc64" t then ["--with-abi=elfv2"] else [].

Definition mips_flag (t : string) : list string :=
  if Py.contains "mips64" t || Py.contains "mipsisa64" t
  then if Py.contains "n32" t then ["--with-abi=n32"] else ["--with-abi=64"]
  else [].

Definition s390x_flag (t : string) : list string :=
  if Py.contains "s390x" t then ["--with-long-double-128"] else [].

Definition float_flag (t : string) : list string :=
  if Py.endswith t "sf" then ["--with-float=soft"]
  else if Py.endswith t "hf" then ["--with-float=hard"]
  else [].

(** The architecture-conditional flags, in the order fdpic, x32, ppc64,
    mips, s390x, float-abi. *)
Definition arch_flags (t : string) : list string :=
  fdpic_flag t ++ x32_flag t ++ ppc64_flag t ++ mips_flag t
  ++ s390x_flag t ++ float_flag t.

(** The user's extra flags: [--gcc-flags] split at single spaces. *)
Definition user_gcc_flags (args : Namespace) : list string :=
  match arg_gcc_flags args with
  | Some (String _ _ as f) => Py.split f " "
  | _ => []
  end.

(** The composition order of section 4.3: base, architecture, host, user. *)
Definition documented_gcc_flags (args : Namespace) : list string :=
  gcc_base_flags ++ arch_flags (arg_target args) ++ host_flag args
  ++ user_gcc_flags args.

(** ** Sample runs *)

(** What a path names in a file tree. *)
Inductive fs_node :=
| File
| Dir (entries : list string).

(** The answers of a file tree on which every call succeeds that can: a
    missing path gives [FileNotFoundError], a regular file cannot be
    listed, and a directory cannot be opened for writing. *)
Definition tree_files (tree : string -> option fs_node) : Files :=
  {| stat := fun p =>
       match tree p with
       | Some _ => None
       | None => Some FileNotFoundError
       end;
     os_listdir := fun p =>
       match tree p with
       | Some (Dir entries) => inr entries
       | Some File => inl NotADirectoryError
       | None => inl FileNotFoundError
       end;
     open_w := fun p =>
       match tree p with
       | Some (Dir _) => Some IsADirectoryError
       | _ => None
       end |}.

(** A machine with every tool installed under [/usr/bin], eight
    processors, and a patch bundle that holds two patches for musl 1.2.4
    and nothing else. *)
Definition sample_env : Env :=
  {| which := fun cmd => Some ("/usr/bin/" ++ cmd);
     fs := tree_files (fun p =>
       if String.eqb p
            ("patches/musl-cross-make-" ++ MUSL_CROSS_MAKE_COMMIT
             ++ "/patches/musl-1.2.4")
       then Some (Dir ["fix-a.patch"; "fix-b.patch"])
       else None);
     cpu_count := Some 8;
     platform_system := "Linux";
     cwd := "/work" |}.

(** [--target arm-linux-musleabihf] *)
Definition sample_args : Args :=
  Args_init (default_namespace "arm-linux-musleabihf").

(** A canadian-cross configuration: a hard-float ARM target built to run
    on a MinGW host. *)
Definition canadian_namespace : Namespace :=
  {| arg_no_patches := false;
     arg_prefix := "$root_dir/toolchain";
     arg_host := Some "x86_64-w64-mingw32";
     arg_target := "arm-linux-musleabihf";
     arg_cc := "$host-gcc";
     arg_cxx := "$host-g++";
     arg_cc_build := "gcc";
     arg_cxx_build := "g++";
     arg_cc_flags := None;
     arg_cxx_flags := None;
     arg_ld_flags := None;
     arg_enable_cache := false;
     arg_binutils_flags := None;
     arg_gcc_flags := Some "--enable-lto";
     arg_gcc_with_isl := false;
     arg_binutils_version := "2.40";
     arg_gcc_version := "13.1.0";
     arg_gmp_version := "6.2.1";
     arg_isl_version := "0.24";
     arg_linux_version := "6.3.5";
     arg_mpc_version := "1.3.1";
     arg_mpfr_version := "4.2.0";
     arg_musl_version := "1.2.4" |}.

(** The patch command the extract loop writes for one archive, once the
    loop is known to have run to its end. *)
Definition written_patch_command (a : Args) (env : Env) (nv : string * string)
  : string :=
  match patch_command_for a env (fst nv) (snd nv) with
  | inr patch_command => patch_command
  | inl _ => "true"
  end.

(** The four nodes of the kernel-headers part of the graph. *)
Definition kernel_nodes : list string :=
  [ "$linux_tarball";
    "$build_targets_dir/extract-linux";
    "$build_targets_dir/build-linux";
    "$build_targets_dir/install-linux" ].

(** The nodes outside the kernel part, the [install] alias put aside. *)
Definition outside_kernel (n : string) : bool :=
  negb (Py.mem n kernel_nodes) && negb (String.eqb n "install").

(** A node of the compiler, of the C library or of one of the packages
    built into them, by its name. *)
Definition toolchain_node (n : string) : bool :=
  existsb (fun part => Py.contains part n)
    ["gcc"; "musl"; "binutils"; "gmp"; "mpc"; "mpfr"; "isl"].

(** [--target loongarch64-linux-musl]: an architecture outside the
    documented table. *)
Definition loongarch_args : Args :=
  Args_init (default_namespace "loongarch64-linux-musl").

(** [--target x86_64-linux-musl --gcc-with-isl] *)
Definition isl_args : Args :=
  Args_init (command_line "x86_64-linux-musl" None true).

(** Whether [shutil.which] finds a command, and the line [_exists] prints
    for it. *)
Definition found (env : Env) (cmd : string) : bool :=
  match which env cmd with
  | Some _ => true
  | None => false
  end.

Definition exists_line (env : Env) (cmd msg : string) : string :=
  match which env cmd with
  | Some path => msg ++ ": " ++ cmd ++ " (" ++ path ++ ")"
  | None => msg ++ ": " ++ cmd ++ " (doesn't exists)"
  end.

(** [self] with the wrapper [w] in front of the four compiler commands. *)
Definition wrapped (w : string) (a : Args) : Args :=
  set_tools a (w ++ " " ++ cc a) (w ++ " " ++ cxx a)
    (w ++ " " ++ cc_build a) (w ++ " " ++ cxx_build a) (_make a).

(** A printed line that reports a check of a host compiler. *)
Definition host_check_line (line : string) : bool :=
  Py.startswith line "Checking for host".

(** A machine where [sccache] is the only compiler cache installed. *)
Definition sccache_env : Env :=
  {| which := fun cmd =>
       if String.eqb cmd "ccache" then None else Some ("/usr/bin/" ++ cmd);
     fs := tree_files (fun _ => None);
     cpu_count := Some 4;
     platform_system := "Linux";
     cwd := "/work" |}.

(** [--target arm-linux-musleabihf --enable-cache --cc clang --cxx clang++] *)
Definition cached_namespace : Namespace :=
  {| arg_no_patches := false;
     arg_prefix := "$root_dir/toolchain";
     arg_host := None;
     arg_target := "arm-linux-musleabihf";
     arg_cc := "clang";
     arg_cxx := "clang++";
     arg_cc_build := "gcc";
     arg_cxx_build := "g++";
     arg_cc_flags := None;
     arg_cxx_flags := None;
     arg_ld_flags := None;
     arg_enable_cache := true;
     arg_binutils_flags := None;
     arg_gcc_flags := None;
     arg_gcc_with_isl := false;
     arg_binutils_version := "2.40";
     arg_gcc_version := "13.1.0";
     arg_gmp_version := "6.2.1";
     arg_isl_version := "0.24";
     arg_linux_version := "6.3.5";
     arg_mpc_version := "1.3.1";
     arg_mpfr_version := "4.2.0";
     arg_musl_version := "1.2.4" |}.

(** [self] as it would be without [--enable-cache]. *)
Definition without_cache (a : Args) : Args :=
  {| no_patches := no_patches a;
     prefix := prefix a;
     host := host a;
     target := target a;
     cc := cc a;
     cxx := cxx a;
     cc_build := cc_build a;
     cxx_build := cxx_build a;
     cc_flags := cc_flags a;
     cxx_flags := cxx_flags a;
     ld_flags := ld_flags a;
     enable_cache := false;
     binutils_flags := binutils_flags a;
     gcc_flags := gcc_flags a;
     gcc_with_isl := gcc_with_isl a;
     binutils_version := binutils_version a;
     gcc_version := gcc_version a;
     gmp_version := gmp_version a;
     isl_version := isl_version a;
     linux_version := linux_version a;
     mpc_version := mpc_version a;
     mpfr_version := mpfr_version a;
     musl_version := musl_version a;
     _make := _make a |}.

(** The wrapper the cache step settles on. *)
Definition cache_choice (env : Env) : option string :=
  if found env "ccache" then Some "ccache"
  else if found env "sccache" then Some "sccache"
  else None.

(** A command with the chosen wrapper, if any, in front. *)
Definition with_wrapper (w : option string) (cmd : string) : string :=
  match w with
  | Some w => w ++ " " ++ cmd
  | None => cmd
  end.

(** A printed line that reports a check of [sccache]. *)
Definition sccache_check_line (line : string) : bool :=
  Py.startswith line "Checking for tool sccache".

(** The make program found, if any, and the lines printed on the way. *)
Definition make_choice (env : Env) : option string :=
  if found env "make" then Some "make"
  else if found env "gmake" then Some "gmake"
  else if found env "mingw32-make" then Some "mingw32-make"
  else None.

Definition make_lines (env : Env) : list string :=
  exists_line env "make" "Checking for tool make"
  :: if found env "make" then []
     else exists_line env "gmake" "Checking for tool gmake"
          :: if found env "gmake" then []
             else [exists_line env "mingw32-make" "Checking for tool mingw32-make"].

(** The build statements come in dependency order: each one names only
    what is in [seen], the outputs written before it and the two
    directories the clean targets delete, and its own output is new. *)
Fixpoint in_dependency_order (seen : list string) (g : list call) : bool :=
  match g with
  | [] => true
  | build out _ inputs implicit _ _ :: g' =>
      forallb (fun d => Py.mem d seen) (inputs ++ implicit)
      && negb (Py.mem out seen)
      && in_dependency_order (out :: seen) g'
  | _ :: g' => in_dependency_order seen g'
  end.

(** The user's extra binutils flags: [--binutils-flags] split at single
    spaces. *)
Definition user_binutils_flags (args : Namespace) : list string :=
  match arg_binutils_flags args with
  | Some (String _ _ as f) => Py.split f " "
  | _ => []
  end.

(** An exception of [stat] that [Path.exists] takes for a path that is
    not there: a [ValueError], an [OSError] with one of the four error
    codes, or one with one of the three Windows error numbers. *)
Definition path_absent (e : exn) : bool :=
  match e with
  | ValueError => true
  | OSError (ENOENT | ENOTDIR | EBADF | ELOOP) _ => true
  | OSError _ (Some w) => Nat.eqb w 21 || Nat.eqb w 123 || Nat.eqb w 1921
  | OSError _ None => false
  end.


(** The exception the patch lookup of one archive ends in, if any: one
    of [stat] that [Path.exists] re-raises, or one of [os.listdir] on a
    path that [stat] has found. *)
Definition lookup_failure (env : Env) (nv : string * string) : option exn :=
  let p := "patches/musl-cross-make-" ++ MUSL_CROSS_MAKE_COMMIT
           ++ "/patches/" ++ fst nv ++ "-" ++ snd nv in
  match stat (fs env) p with
  | Some e => if path_absent e then None else Some e
  | None =>
      match os_listdir (fs env) p with
      | inl e => Some e
      | inr _ => None
      end
  end.

(** The first lookup that fails, and the archives looked up before it. *)
Fixpoint first_failure (env : Env) (l : list (string * string)) : option exn :=
  match l with
  | [] => None
  | nv :: l' =>
      match lookup_failure env nv with
      | Some e => Some e
      | None => first_failure env l'
      end
  end.


(** A run of [n] nines. *)
Fixpoint nines (n : nat) : string :=
  match n with
  | 0 => EmptyString
  | S n' => String "9"%char (nines n')
  end.

(** A component of the path is longer than the 255 characters a file
    name may have. *)
Definition name_too_long (p : string) : bool :=
  existsb (fun c => Nat.ltb 255 (String.length c)) (Py.split p "/").

(** The sample machine, where a path with a component that long makes
    every call fail with [ENAMETOOLONG]. *)
Definition long_name_env : Env :=
  {| which := which sample_env;
     fs := {| stat := fun p =>
                if name_too_long p then Some (OSError ENAMETOOLONG None)
                else stat (fs sample_env) p;
              os_listdir := fun p =>
                if name_too_long p then inl (OSError ENAMETOOLONG None)
                else os_listdir (fs sample_env) p;
              open_w := fun p =>
                if name_too_long p then Some (OSError ENAMETOOLONG None)
                else open_w (fs sample_env) p |};
     cpu_count := cpu_count sample_env;
     platform_system := platform_system sample_env;
     cwd := cwd sample_env |}.

(** The host compilers [try_get_tools] checks under [if self.host]: the
    [--cc] and [--cxx] commands with [$host] filled in and leading hyphens
    dropped (lines 178-179). *)
Definition host_compilers (a : Args) : option (string * string) :=
  match host a with
  | Some (String _ _ as h) =>
      Some (Py.lstrip (Py.replace (cc a) "$host" h) "-",
            Py.lstrip (Py.replace (cxx a) "$host" h) "-")
  | _ => None
  end.

(** Some tool the script cannot do without is not on the path. *)
Definition tools_missing (env : Env) (a : Args) : bool :=
  negb (found env (cc_build a))
  || negb (found env (cxx_build a))
  || match host_compilers a with
     | Some (c, x) => negb (found env c) || negb (found env x)
     | None => false
     end
  || negb (found env "make" || found env "gmake" || found env "mingw32-make")
  || negb (found env "curl")
  || negb (found env "patch")
  || negb (found env "tar").

(** The lines [try_get_tools] prints for the host compilers and for the
    compiler cache. *)
Definition host_lines (env : Env) (a : Args) : list string :=
  match host_compilers a with
  | Some (c, x) =>
      [ exists_line env c "Checking for host C compiler";
        exists_line env x "Checking for host C++ compiler" ]
  | None => []
  end.

Definition cache_lines (env : Env) (a : Args) : list string :=
  if enable_cache a then
    exists_line env "ccache" "Checking for tool ccache"
    :: (if found env "ccache" then []
        else [exists_line env "sccache" "Checking for tool sccache"])
    ++ match cache_choice env with
       | Some w => ["Using " ++ w ++ " as compiler wrapper"]
       | None => []
       end
  else [].

(** The stages of the bootstrap from the final compiler back to the
    binutils archive, each the direct dependency of the one before. *)
Definition bootstrap_chain : list string :=
  [ "$build_targets_dir/build-gcc";
    "$build_targets_dir/build-gcc-libgcc-shared";
    "$build_targets_dir/clean-gcc-libgcc-static";
    "$build_targets_dir/install-musl-dep";
    "$build_targets_dir/build-musl";
    "$build_targets_dir/build-gcc-libgcc-static";
    "$build_targets_dir/install-musl-headers-dep";
    "$build_targets_dir/configure-musl";
    "$build_targets_dir/build-gcc-all-gcc";
    "$build_targets_dir/configure-gcc";
    "$build_targets_dir/build-binutils";
    "$build_targets_dir/configure-binutils";
    "$build_targets_dir/extract-binutils";
    "$binutils_tarball" ].

(** Each name of the list depends directly on the next one. *)
Fixpoint chained (g : list call) (l : list string) : bool :=
  match l with
  | x :: ((y :: _) as l') => Py.mem y (dependencies g x) && chained g l'
  | _ => true
  end.

(** The four install nodes, and the rules that build them. *)
Definition install_nodes : list string :=
  [ "$build_targets_dir/install-binutils";
    "$build_targets_dir/install-gcc";
    "$build_targets_dir/install-musl";
    "$build_targets_dir/install-linux" ].

Definition install_rules : list string :=
  [ "install-binutils"; "install-gcc"; "install-musl"; "install-linux" ].

(** The two rules whose command carries configure flags, the user's own
    among them. *)
Definition flag_rules : list string :=
  [ "configure-binutils"; "configure-gcc" ].

(** The text of a command names the install prefix. *)
Definition names_install_dir (command : string) : bool :=
  Py.contains "$install_dir" command.

(** The rules declared, each with its command, and the build statements,
    each output with the rule that builds it. *)
Definition call_rule (c : call) : list (string * string) :=
  match c with
  | rule n command _ => [(n, command)]
  | _ => []
  end.

Definition rules (g : list call) : list (string * string) :=
  flat_map call_rule g.

Definition call_node_rule (c : call) : list (string * string) :=
  match c with
  | build out r _ _ _ _ => [(out, r)]
  | _ => []
  end.

Definition node_rules (g : list call) : list (string * string) :=
  flat_map call_node_rule g.

Definition rules_of_node (g : list call) (out : string) : list string :=
  map snd (filter (fun nr => String.eqb (fst nr) out) (node_rules g)).

(** Neither an install node nor the [install] alias. *)
Definition not_installing (n : string) : bool :=
  negb (Py.mem n install_nodes) && negb (String.eqb n "install").

(** Every rule is declared once, and every build statement uses a rule
    declared before it. *)
Fixpoint rules_before_use (declared : list string) (g : list call) : bool :=
  match g with
  | [] => true
  | rule n _ _ :: g' =>
      negb (Py.mem n declared) && rules_before_use (n :: declared) g'
  | build _ r _ _ _ _ :: g' =>
      Py.mem r declared && rules_before_use declared g'
  | _ :: g' => rules_before_use declared g'
  end.

(** The rules the build statements use, and the rules declared. *)
Definition call_rule_used (c : call) : list string :=
  match c with
  | build _ r _ _ _ _ => [r]
  | _ => []
  end.

Definition call_rule_declared (c : call) : list string :=
  match c with
  | rule n _ _ => [n]
  | _ => []
  end.

(** ** The summary and the entry point *)

(** The newline character. *)
Definition nl : string := String (ascii_of_nat 10) EmptyString.

(** [Args.dependencies_summary]: the text of its [print] calls, one
    element per call (lines 146-157). *)
Definition dependencies_summary (a : Args) : list string :=
  [ nl ++ "Dependencies:";
    "  binutils " ++ binutils_version a;
    "       gcc " ++ gcc_version a;
    "       gmp " ++ gmp_version a ]
  ++ (if gcc_with_isl a then ["       isl " ++ isl_version a] else [])
  ++ [ "     linux " ++ linux_version a;
       "       mpc " ++ mpc_version a;
       "      mpfr " ++ mpfr_version a ++ nl ].

(** What [requests.get] and [zipfile] do for the patch bundle (lines
    893-898): either call raises, or the bundle is unpacked and the file
    system answers anew. *)
Inductive fetch_result :=
| GetRaised
| ExtractRaised
| Fetched (files : Files).

(** The machine and the network [main] runs against. *)
Record World := mkWorld {
  machine : Env;
  fetch : fetch_result
}.

(** The machine with another file system. *)
Definition with_fs (e : Env) (files : Files) : Env :=
  {| which := which e;
     fs := files;
     cpu_count := cpu_count e;
     platform_system := platform_system e;
     cwd := cwd e |}.

(** How a run of [main] ends: an exception of [Path.exists] on the
    bundle directory, an exception while the patch bundle is fetched,
    [sys.exit], or [Args.ninja] with the calls it made and the exception
    that ended it, if any. *)
Inductive ending :=
| RaisedInLookup (e : exn)
| RaisedInFetch
| Exited (code : nat)
| Wrote (calls : list call) (raised : option exn).

Record run := mkRun {
  printed : list string;
  requested : bool;   (* whether [requests.get] was called *)
  ended : ending
}.

Definition patches_dir : string :=
  "patches/musl-cross-make-" ++ MUSL_CROSS_MAKE_COMMIT.

Definition patches_url : string :=
  "https://github.com/richfelker/musl-cross-make/archive/"
  ++ MUSL_CROSS_MAKE_COMMIT ++ ".zip".

(** Lines 902-909: what [main] does once the patch bundle is in place.
    The line [Writing build.ninja] is the [print] at the head of
    [Args.ninja] (line 231). *)
Definition main_tools_and_plan (a : Args) (e : Env) (out : list string)
  (called : bool) : run :=
  let '(failed, st) := try_get_tools e {| self := a; stdout := out |} in
  if failed then
    {| printed := stdout st
                  ++ ["Error: Some tools do not exist. You may need add them to your PATH."];
       requested := called;
       ended := Exited 1 |}
  else
    let '(calls, raised) := ninja (self st) e in
    {| printed := stdout st ++ dependencies_summary (self st)
                  ++ ["Writing build.ninja"];
       requested := called;
       ended := Wrote calls raised |}.

(** [main] (lines 884-909). *)
Definition main (args : Namespace) (w : World) : run :=
  let a := Args_init args in
  if negb (no_patches a) then
    match Path_exists (machine w) patches_dir with
    | inl e =>
        {| printed := []; requested := false; ended := RaisedInLookup e |}
    | inr false =>
        match fetch w with
        | GetRaised =>
            {| printed := ["Downloading patches from " ++ patches_url];
               requested := true;
               ended := RaisedInFetch |}
        | ExtractRaised =>
            {| printed := [ "Downloading patches from " ++ patches_url;
                            "Extracting patches at " ++ patches_dir ];
               requested := true;
               ended := RaisedInFetch |}
        | Fetched files =>
            main_tools_and_plan a (with_fs (machine w) files)
              [ "Downloading patches from " ++ patches_url;
                "Extracting patches at " ++ patches_dir ]
              true
        end
    | inr true =>
        main_tools_and_plan a (machine w)
          ["Patches are already downloaded at " ++ patches_dir] false
    end
  else main_tools_and_plan a (machine w) [] false.

(** The patch bundle has to be looked up, and looking it up or fetching
    it raises. *)
Definition fetch_raises (args : Namespace) (w : World) : bool :=
  negb (arg_no_patches args)
  && match Path_exists (machine w) patches_dir with
     | inl _ => true
     | inr true => false
     | inr false => match fetch w with Fetched _ => false | _ => true end
     end.

(** The compiler commands tool discovery settles on, before a wrapper. *)
Definition resolved_cc (a : Args) : string :=
  match host_compilers a with
  | Some (c, _) => c
  | None => cc_build a
  end.

Definition resolved_cxx (a : Args) : string :=
  match host_compilers a with
  | Some (_, x) => x
  | None => cxx_build a
  end.

(** The wrapper of a run: the cache chosen, when the cache is enabled. *)
Definition run_wrapper (env : Env) (a : Args) : option string :=
  if enable_cache a then cache_choice env else None.

(** A world with the patch bundle still to fetch, and a fetch that works. *)
Definition sample_world : World :=
  {| machine := {| which := fun cmd => Some ("/usr/bin/" ++ cmd);
                   fs := tree_files (fun _ => None);
                   cpu_count := Some 8;
                   platform_system := "Linux";
                   cwd := "/work" |};
     fetch := Fetched (fs sample_env) |}.

(** A world without [tar]. *)
Definition no_tar_world : World :=
  {| machine := {| which := fun cmd =>
                     if String.eqb cmd "tar" then None
                     else Some ("/usr/bin/" ++ cmd);
                   fs := tree_files (fun _ => None);
                   cpu_count := Some 8;
                   platform_system := "Linux";
                   cwd := "/work" |};
     fetch := Fetched (tree_files (fun _ => None)) |}.

(** The value of the variable [key] in effect at each build statement:
    the last one written before it, if any. *)
Fixpoint bindings_in_effect (key : string) (current : option (option string))
  (g : list call) : list (string * option (option string)) :=
  match g with
  | [] => []
  | variable k v :: g' =>
      bindings_in_effect key (if String.eqb k key then Some v else current) g'
  | build out _ _ _ _ _ :: g' =>
      (out, current) :: bindings_in_effect key current g'
  | _ :: g' => bindings_in_effect key current g'
  end.

(** The binding in effect at the statement that builds [out]. *)
Definition binding_at (key : string) (g : list call) (out : string)
  : list (option (option string)) :=
  map snd (filter (fun p => String.eqb (fst p) out)
             (bindings_in_effect key None g)).

(** A machine where [build.ninja] is a directory. *)
Definition build_ninja_dir_env : Env :=
  {| which := fun cmd => Some ("/usr/bin/" ++ cmd);
     fs := tree_files (fun p =>
       if String.eqb p "build.ninja" then Some (Dir []) else None);
     cpu_count := Some 8;
     platform_system := "Linux";
     cwd := "/work" |}.

(** [--target arm-linux-musleabihf --gcc-version 999...9], with 300
    digits. *)
Definition long_version_args : Args :=
  let a := Args_init (default_namespace "arm-linux-musleabihf") in
  {| no_patches := no_patches a;
     prefix := prefix a;
     host := host a;
     target := target a;
     cc := cc a;
     cxx := cxx a;
     cc_build := cc_build a;
     cxx_build := cxx_build a;
     cc_flags := cc_flags a;
     cxx_flags := cxx_flags a;
     ld_flags := ld_flags a;
     enable_cache := enable_cache a;
     binutils_flags := binutils_flags a;
     gcc_flags := gcc_flags a;
     gcc_with_isl := gcc_with_isl a;
     binutils_version := binutils_version a;
     gcc_version := nines 300;
     gmp_version := gmp_version a;
     isl_version := isl_version a;
     linux_version := linux_version a;
     mpc_version := mpc_version a;
     mpfr_version := mpfr_version a;
     musl_version := musl_version a;
     _make := _make a |}.

(** A machine where the patch path of gcc 13.1.0 is a regular file. *)
Definition broken_bundle_env : Env :=
  {| which := fun cmd => Some ("/usr/bin/" ++ cmd);
     fs := tree_files (fun p =>
       if String.eqb p
            ("patches/musl-cross-make-" ++ MUSL_CROSS_MAKE_COMMIT
             ++ "/patches/gcc-13.1.0")
       then Some File
       else None);
     cpu_count := Some 8;
     platform_system := "Linux";
     cwd := "/work" |}.

(** * Properties *)

(** ** Python string primitives, on samples *)

Example split_triple :
  Py.split "arm-linux-musleabihf" "-" = ["arm"; "linux"; "musleabihf"].
Proof. reflexivity. Qed.

Example split_double_space : Py.split "a  b" " " = ["a"; ""; "b"].
Proof. reflexivity. Qed.

Example replace_host :
  Py.replace "$host-gcc" "$host" "x86_64-w64-mingw32" = "x86_64-w64-mingw32-gcc".
Proof. reflexivity. Qed.

Example endswith_x32 : Py.endswith "x86_64-linux-muslx32" "x32" = true.
Proof. reflexivity. Qed.

Example str_cpu : Py.str_opt_nat (Some 16) = "16" /\ Py.str_opt_nat (Some 0) = "0".
Proof. split; reflexivity. Qed.

(** ** Flag composition *)

Section FlagComposition.

Lemma append_if_app c x l :
  append_if c x l = (l ++ if c then [x] else [])%list.
Proof. destruct c; simpl; [reflexivity | now rewrite app_nil_r]. Qed.

Lemma append_mips_abi_app t l :
  append_mips_abi t l = (l ++ mips_flag t)%list.
Proof.
  unfold append_mips_abi, mips_flag.
  destruct (Py.contains "mips64" t || Py.contains "mipsisa64" t);
    [destruct (Py.contains "n32" t) |]; simpl;
    rewrite ?app_nil_r; reflexivity.
Qed.

Lemma append_float_abi_app t l :
  append_float_abi t l = (l ++ float_flag t)%list.
Proof.
  unfold append_float_abi, float_flag.
  destruct (Py.endswith t "sf"); [| destruct (Py.endswith t "hf")];
    simpl; rewrite ?app_nil_r; reflexivity.
Qed.

Lemma extend_split_app args l :
  extend_split (arg_gcc_flags args) l = (l ++ user_gcc_flags args)%list.
Proof.
  unfold extend_split, user_gcc_flags.
  destruct (arg_gcc_flags args) as [[| c f] |]; simpl;
    rewrite ?app_nil_r; reflexivity.
Qed.

End FlagComposition.

(** C3, as amended: the compiler's flag list is the base flags, then the
    host flag when a non-empty host triple is configured, then the
    architecture-conditional flags in the order fdpic, x32, ppc64, mips,
    s390x, float-abi, then the user's extra flags last. *)
Theorem gcc_flags_composition (args : Namespace) :
  gcc_flags (Args_init args)
  = (gcc_base_flags ++ host_flag args ++ arch_flags (arg_target args)
     ++ user_gcc_flags args)%list.
Proof.
  cbn [gcc_flags Args_init]. unfold init_gcc_flags.
  rewrite extend_split_app, append_float_abi_app, append_mips_abi_app.
  rewrite !append_if_app.
  unfold arch_flags, host_flag, fdpic_flag, x32_flag, ppc64_flag, s390x_flag.
  rewrite <- !app_assoc. reflexivity.
Qed.

(** C3, as stated, fails: with a host triple and a hard-float target the
    host flag is written before the float-abi flag, not after it. *)
Lemma gcc_flags_host_before_arch :
  gcc_flags (Args_init canadian_namespace)
  = (gcc_base_flags
     ++ ["--host=$host"; "--with-float=hard"; "--enable-lto"])%list
  /\ documented_gcc_flags canadian_namespace
     = (gcc_base_flags
        ++ ["--with-float=hard"; "--host=$host"; "--enable-lto"])%list
  /\ gcc_flags (Args_init canadian_namespace)
     <> documented_gcc_flags canadian_namespace.
Proof.
  split; [reflexivity | split; [reflexivity | discriminate]].
Qed.

(** ** The kernel architecture *)

Section KernelArch.

(** The chain of [kernel_arch] agrees with the documented table: the
    row that matches first decides, and the component itself is the
    answer when no row matches. *)
Lemma kernel_arch_table_lookup (triple : string) :
  kernel_arch triple
  = match table_lookup kernel_arch_table (first_component triple) with
    | Some k => k
    | None => first_component triple
    end.
Proof.
  unfold kernel_arch, first_component, kernel_arch_table.
  set (arch := hd EmptyString (Py.split triple "-")).
  cbn [table_lookup arch_matches].
  repeat match goal with
         | |- context [if ?c then _ else _] => destruct c; try reflexivity
         end.
Qed.

End KernelArch.

(** C4: a triple whose first component matches a row of the documented
    table resolves to the entry of the first row that matches, in the
    documented order. *)
Theorem kernel_arch_first_match (triple k : string) :
  table_lookup kernel_arch_table (first_component triple) = Some k ->
  kernel_arch triple = k.
Proof.
  intros H. rewrite kernel_arch_table_lookup, H. reflexivity.
Qed.

(** C4 at [aarch64_be-linux-musl]: the [aarch64] row is met before the
    [arm] row. *)
Lemma kernel_arch_first_match_aarch64 :
  table_lookup kernel_arch_table (first_component "aarch64_be-linux-musl")
  = Some "arm64"
  /\ kernel_arch "aarch64_be-linux-musl" = "arm64".
Proof.
  split; [reflexivity |].
  apply (kernel_arch_first_match "aarch64_be-linux-musl" "arm64").
  reflexivity.
Defined.

Example kernel_arch_samples :
  kernel_arch "arm-linux-musleabihf" = "arm"
  /\ kernel_arch "armv7l-linux-musleabihf" = "arm"
  /\ kernel_arch "i686-linux-musl" = "x86"
  /\ kernel_arch "i486-linux-musl" = "x86"
  /\ kernel_arch "mips64el-linux-musln32" = "mips"
  /\ kernel_arch "or1k-linux-musl" = "openrisc"
  /\ kernel_arch "powerpc64le-linux-musl" = "powerpc"
  /\ kernel_arch "riscv64-linux-musl" = "riscv"
  /\ kernel_arch "s390x-linux-musl" = "s390"
  /\ kernel_arch "sh4-linux-musl" = "sh"
  /\ kernel_arch "x86_64-linux-muslx32" = "x86_64"
  /\ kernel_arch "ARM-linux-musl" = "ARM".
Proof. repeat split. Qed.

(** ** The shape of a run of [ninja] *)

Section Run.

Variables (a : Args) (env : Env).

(** When [open] raises there is no writer, and nothing is written. *)
Lemma ninja_unopened (e : exn) :
  open_w (fs env) "build.ninja" = Some e -> ninja a env = ([], Some e).
Proof. unfold ninja. now intros ->. Qed.

Lemma ninja_opened :
  snd (ninja a env) = None -> open_w (fs env) "build.ninja" = None.
Proof.
  unfold ninja. destruct (open_w (fs env) "build.ninja"); [discriminate | reflexivity].
Qed.

(** What is written once the file is open: the head, the part of the
    extract loop that ran, and the steps when the loop ran to its end. *)
Lemma ninja_written :
  open_w (fs env) "build.ninja" = None ->
  ninja a env
  = ((ninja_variables a env ++ ninja_downloads a
      ++ fst (extract_loop a env (name_version_tuples a))
      ++ match snd (extract_loop a env (name_version_tuples a)) with
         | None => ninja_steps a env
         | Some _ => []
         end)%list,
     snd (extract_loop a env (name_version_tuples a))).
Proof.
  unfold ninja. intros ->.
  destruct (extract_loop a env (name_version_tuples a)) as [written [e |]];
    cbn [fst snd]; rewrite <- ?app_assoc, ?app_nil_r; reflexivity.
Qed.

Lemma extract_loop_completed (l : list (string * string)) :
  snd (extract_loop a env l) = None ->
  fst (extract_loop a env l)
  = flat_map (fun nv => extract_build (fst nv) (written_patch_command a env nv)) l.
Proof.
  induction l as [| [n v] l IH]; [reflexivity |].
  cbn [extract_loop flat_map fst snd]. unfold written_patch_command at 1.
  cbn [fst snd].
  destruct (patch_command_for a env n v) as [e | pc]; [discriminate |].
  destruct (extract_loop a env l) as [written raised].
  cbn [fst snd] in *. intros ->. rewrite IH by reflexivity. reflexivity.
Qed.

(** A run that ends without an exception wrote the whole file. *)
Lemma ninja_completed :
  snd (ninja a env) = None ->
  fst (ninja a env)
  = (ninja_variables a env ++ ninja_downloads a
     ++ flat_map (fun nv => extract_build (fst nv) (written_patch_command a env nv))
          (name_version_tuples a)
     ++ ninja_steps a env)%list.
Proof.
  intros H. pose proof (ninja_opened H) as Ho.
  rewrite (ninja_written Ho) in *. cbn [fst snd] in *.
  rewrite H, (extract_loop_completed _ H). reflexivity.
Qed.


(** [Path.exists] by the exception of [stat]. *)
Lemma Path_exists_stat (p : string) :
  Path_exists env p
  = match stat (fs env) p with
    | None => inr true
    | Some e => if path_absent e then inr false else inl e
    end.
Proof.
  unfold Path_exists, path_absent, _ignore_error, _IGNORED_ERRNOS,
    _IGNORED_WINERRORS.
  destruct (stat (fs env) p) as [[code [w |] |] |]; [| | reflexivity ..].
  - cbn [existsb]. rewrite !orb_false_r.
    destruct code; cbn [errno_eqb orb]; rewrite ?orb_assoc; reflexivity.
  - cbn [existsb]. destruct code; cbn [errno_eqb orb]; reflexivity.
Qed.

(** The lookup of one archive raises where [lookup_failure] says. *)
Lemma patch_command_for_failure (n v : string) :
  match patch_command_for a env n v with
  | inl e => no_patches a = false /\ lookup_failure env (n, v) = Some e
  | inr _ => no_patches a = true \/ lookup_failure env (n, v) = None
  end.
Proof.
  unfold patch_command_for, Patch_exists, Patch_files, listdir, lookup_failure.
  destruct (no_patches a); cbn [negb]; [now left |].
  rewrite Path_exists_stat. cbn [path Patch_init fst snd].
  destruct (stat (fs env) _) as [e |].
  - destruct (path_absent e); [now right | now split].
  - destruct (os_listdir (fs env) _) as [e | entries]; [now split | now right].
Qed.

Lemma extract_loop_failure (l : list (string * string)) :
  snd (extract_loop a env l)
  = if no_patches a then None else first_failure env l.
Proof.
  induction l as [| [n v] l IH]; [now destruct (no_patches a) |].
  cbn [extract_loop first_failure].
  pose proof (patch_command_for_failure n v) as H.
  destruct (patch_command_for a env n v) as [e | pc].
  - destruct H as [-> ->]. reflexivity.
  - destruct (extract_loop a env l) as [written raised]. cbn [snd] in *.
    rewrite IH. destruct H as [-> | ->]; reflexivity.
Qed.

(** The run completes when the file can be opened and patches are off,
    or no lookup fails. *)
Lemma ninja_total :
  open_w (fs env) "build.ninja" = None ->
  (no_patches a = true \/ forall nv, lookup_failure env nv = None) ->
  snd (ninja a env) = None.
Proof.
  intros Ho H. rewrite (ninja_written Ho). cbn [snd].
  rewrite extract_loop_failure.
  destruct H as [-> | H]; [reflexivity |].
  destruct (no_patches a); [reflexivity |].
  induction (name_version_tuples a) as [| nv l IH]; [reflexivity |].
  cbn [first_failure]. now rewrite H.
Qed.

End Run.

(** ** The action graph *)

Ltac unfold_plan :=
  unfold ninja_variables, ninja_downloads, ninja_steps, ninja_binutils,
    ninja_configure_gcc, ninja_build_gcc_all_gcc, ninja_configure_musl,
    ninja_build_musl, ninja_build_gcc, ninja_linux, ninja_targets,
    configure_gcc_implicit, build_targets_move, configure_musl_command,
    musl_configure_env_vars, gcc_vars, musl_vars,
    download_targets, move_targets, name_version_tuples, append_if.

(** The list of calls has one shape per value of the ISL switch and of
    the build mode. *)
Ltac plan_cases a :=
  unfold_plan;
  generalize (kernel_arch (target a)); intros ?arch;
  destruct (gcc_with_isl a), (is_cross a).

Section Graph.

Lemma mem_In (x : string) (l : list string) : Py.mem x l = true <-> In x l.
Proof.
  unfold Py.mem. rewrite existsb_exists. split.
  - intros [y [Hy E]]. apply String.eqb_eq in E. now subst.
  - intros H. exists x. split; [assumption | apply String.eqb_refl].
Qed.

(** A set of names that no edge leaves holds every path that starts in
    it. *)
Lemma closed_under_path (g : list call) (s : string -> bool) (x y : string) :
  closed_under s (edges g) = true ->
  dep_path g x y -> s x = true -> s y = true.
Proof.
  intros Hc Hp. induction Hp as [x | x y z Hxy _ IH]; [trivial |].
  intros Hx. apply IH.
  unfold closed_under in Hc. rewrite forallb_forall in Hc.
  specialize (Hc _ Hxy). cbn [fst snd] in Hc.
  rewrite Hx in Hc. exact Hc.
Qed.

Variables (a : Args) (env : Env).

Lemma extract_loop_defaults (l : list (string * string)) :
  defaults (fst (extract_loop a env l)) = [].
Proof.
  induction l as [| [n v] l IH]; [reflexivity |].
  cbn [extract_loop].
  destruct (patch_command_for a env n v); [reflexivity |].
  destruct (extract_loop a env l). exact IH.
Qed.

Hypothesis completed : snd (ninja a env) = None.

Lemma kernel_part_closed :
  closed_under (fun n => Py.mem n kernel_nodes) (edges (fst (ninja a env))) = true.
Proof.
  rewrite (ninja_completed _ _ completed).
  plan_cases a; vm_compute; reflexivity.
Qed.

Lemma outside_kernel_closed :
  closed_under outside_kernel (edges (fst (ninja a env))) = true.
Proof.
  rewrite (ninja_completed _ _ completed).
  plan_cases a; vm_compute; reflexivity.
Qed.

Lemma arch_variable :
  variable_values (fst (ninja a env)) "arch" = [Some (kernel_arch (target a))].
Proof.
  rewrite (ninja_completed _ _ completed).
  plan_cases a; vm_compute; reflexivity.
Qed.

End Graph.

(** C7: in a completed run the kernel-headers nodes form the chain
    download, extract, clean ([build-linux]), install; every toolchain
    node lies outside that part; and no dependency path leads from a
    kernel-headers node to a node outside the part or back.  Only the
    [install] alias, which is no toolchain node, names a kernel node. *)
Theorem kernel_headers_independent (a : Args) (env : Env) :
  snd (ninja a env) = None ->
  let g := fst (ninja a env) in
  (dependencies g "$linux_tarball" = []
   /\ dependencies g "$build_targets_dir/extract-linux" = ["$linux_tarball"]
   /\ dependencies g "$build_targets_dir/build-linux"
      = ["$build_targets_dir/extract-linux"]
   /\ dependencies g "$build_targets_dir/install-linux"
      = ["$build_targets_dir/build-linux"])
  /\ forallb (fun k => Py.mem k (nodes g)) kernel_nodes = true
  /\ forallb (fun n => implb (toolchain_node n) (outside_kernel n)) (nodes g) = true
  /\ forall k n, In k kernel_nodes -> outside_kernel n = true ->
       ~ dep_path g k n /\ ~ dep_path g n k.
Proof.
  intros H g.
  split; [| split; [| split]].
  - subst g. rewrite (ninja_completed _ _ H).
    plan_cases a; vm_compute; repeat split.
  - subst g. rewrite (ninja_completed _ _ H).
    plan_cases a; vm_compute; reflexivity.
  - subst g. rewrite (ninja_completed _ _ H).
    plan_cases a; vm_compute; reflexivity.
  - intros k n Hk Hn. apply mem_In in Hk.
    assert (Hn' : Py.mem n kernel_nodes = false).
    { unfold outside_kernel in Hn. apply andb_prop in Hn as [Hn _].
      now apply negb_true_iff in Hn. }
    split; intros Hp.
    + pose proof (closed_under_path g _ k n (kernel_part_closed a env H) Hp Hk) as E.
      congruence.
    + pose proof (closed_under_path g _ n k (outside_kernel_closed a env H) Hp Hn) as E.
      unfold outside_kernel in E. rewrite Hk in E. discriminate.
Qed.

(** C7 at the sample run: no path between the kernel-headers install and
    the final compiler build, in either direction. *)
Lemma kernel_headers_independent_sample :
  snd (ninja sample_args sample_env) = None
  /\ ~ dep_path (fst (ninja sample_args sample_env))
         "$build_targets_dir/install-linux" "$build_targets_dir/build-gcc"
  /\ ~ dep_path (fst (ninja sample_args sample_env))
         "$build_targets_dir/build-gcc" "$build_targets_dir/install-linux".
Proof.
  assert (H : snd (ninja sample_args sample_env) = None) by (vm_compute; reflexivity).
  split; [exact H |].
  apply (kernel_headers_independent sample_args sample_env H).
  - cbn; tauto.
  - vm_compute; reflexivity.
Defined.

(** C6: in a completed run the gcc configure node depends on the gcc
    extract node, on the relocation nodes of gmp, of isl when ISL is
    enabled, of mpc and of mpfr, and on the binutils build node, and on
    nothing else; each relocation node is in the graph and depends on its
    own extract node; and the ISL download, extract and relocation nodes
    are in the graph exactly when ISL is enabled. *)
Theorem configure_gcc_dependencies (a : Args) (env : Env) :
  snd (ninja a env) = None ->
  let g := fst (ninja a env) in
  dependencies g "$build_targets_dir/configure-gcc"
  = (if gcc_with_isl a
     then [ "$build_targets_dir/extract-gcc";
            "$build_targets_dir/move-gmp";
            "$build_targets_dir/move-isl";
            "$build_targets_dir/move-mpc";
            "$build_targets_dir/move-mpfr";
            "$build_targets_dir/build-binutils" ]
     else [ "$build_targets_dir/extract-gcc";
            "$build_targets_dir/move-gmp";
            "$build_targets_dir/move-mpc";
            "$build_targets_dir/move-mpfr";
            "$build_targets_dir/build-binutils" ])
  /\ forallb (fun n => Py.mem n (nodes g))
       [ "$build_targets_dir/configure-gcc";
         "$build_targets_dir/extract-gcc";
         "$build_targets_dir/build-binutils";
         "$build_targets_dir/move-gmp";
         "$build_targets_dir/move-mpc";
         "$build_targets_dir/move-mpfr" ] = true
  /\ dependencies g "$build_targets_dir/move-gmp"
     = ["$build_targets_dir/extract-gmp"]
  /\ dependencies g "$build_targets_dir/move-mpc"
     = ["$build_targets_dir/extract-mpc"]
  /\ dependencies g "$build_targets_dir/move-mpfr"
     = ["$build_targets_dir/extract-mpfr"]
  /\ dependencies g "$build_targets_dir/move-isl"
     = (if gcc_with_isl a then ["$build_targets_dir/extract-isl"] else [])
  /\ dependencies g "$build_targets_dir/extract-isl"
     = (if gcc_with_isl a then ["$isl_tarball"] else [])
  /\ Py.mem "$isl_tarball" (nodes g) = gcc_with_isl a
  /\ Py.mem "$build_targets_dir/extract-isl" (nodes g) = gcc_with_isl a
  /\ Py.mem "$build_targets_dir/move-isl" (nodes g) = gcc_with_isl a.
Proof.
  intros H g. subst g. rewrite (ninja_completed _ _ H).
  plan_cases a; vm_compute; repeat split.
Qed.

(** C6 at the default versions for [x86_64-linux-musl] with ISL enabled,
    and for [arm-linux-musleabihf] without. *)
Lemma configure_gcc_dependencies_isl :
  snd (ninja isl_args sample_env) = None
  /\ dependencies (fst (ninja isl_args sample_env))
       "$build_targets_dir/configure-gcc"
     = [ "$build_targets_dir/extract-gcc";
         "$build_targets_dir/move-gmp";
         "$build_targets_dir/move-isl";
         "$build_targets_dir/move-mpc";
         "$build_targets_dir/move-mpfr";
         "$build_targets_dir/build-binutils" ]
  /\ dependencies (fst (ninja sample_args sample_env))
       "$build_targets_dir/configure-gcc"
     = [ "$build_targets_dir/extract-gcc";
         "$build_targets_dir/move-gmp";
         "$build_targets_dir/move-mpc";
         "$build_targets_dir/move-mpfr";
         "$build_targets_dir/build-binutils" ].
Proof.
  assert (H : snd (ninja isl_args sample_env) = None) by (vm_compute; reflexivity).
  assert (H' : snd (ninja sample_args sample_env) = None) by (vm_compute; reflexivity).
  split; [exact H |]. split.
  - destruct (configure_gcc_dependencies isl_args sample_env H) as [E _].
    rewrite E. reflexivity.
  - destruct (configure_gcc_dependencies sample_args sample_env H') as [E _].
    rewrite E. reflexivity.
Defined.

(** C2, as amended: a completed run declares as default targets exactly
    the final compiler build [build-gcc] and the kernel tree clean
    [build-linux], whose rule runs [make mrproper]; the kernel-headers
    install [install-linux] is no default target and is reached through
    the [install] alias only.  A run ended by an exception declared no
    default target. *)
Theorem default_targets (a : Args) (env : Env) :
  let g := fst (ninja a env) in
  match snd (ninja a env) with
  | None =>
      defaults g
      = ["$build_targets_dir/build-gcc"; "$build_targets_dir/build-linux"]
      /\ rule_commands g "build-linux"
         = ["cd $linux_dir && $env_vars $make_command mrproper ARCH=$arch && touch ../../$out"]
      /\ Py.mem "$build_targets_dir/install-linux" (nodes g) = true
      /\ Py.mem "$build_targets_dir/install-linux" (defaults g) = false
      /\ dependencies g "install"
         = [ "$build_targets_dir/install-binutils";
             "$build_targets_dir/install-gcc";
             "$build_targets_dir/install-musl";
             "$build_targets_dir/install-linux" ]
  | Some _ => defaults g = []
  end.
Proof.
  intros g. subst g.
  destruct (snd (ninja a env)) as [e |] eqn:H.
  - destruct (open_w (fs env) "build.ninja") as [e' |] eqn:Ho.
    + now rewrite (ninja_unopened a env e' Ho).
    + rewrite (ninja_written a env Ho) in *. cbn [fst snd] in *. rewrite H.
      unfold defaults. rewrite !flat_map_app.
      fold (defaults (fst (extract_loop a env (name_version_tuples a)))).
      rewrite extract_loop_defaults.
      plan_cases a; reflexivity.
  - rewrite (ninja_completed _ _ H).
    plan_cases a; vm_compute; repeat split.
Qed.

(** C2, as stated, fails: in the sample run the kernel-headers install
    node is in the graph and is not a default target; the second default
    target is the kernel tree clean. *)
Lemma default_targets_omit_install_linux :
  snd (ninja sample_args sample_env) = None
  /\ defaults (fst (ninja sample_args sample_env))
     = ["$build_targets_dir/build-gcc"; "$build_targets_dir/build-linux"]
  /\ In "$build_targets_dir/install-linux" (nodes (fst (ninja sample_args sample_env)))
  /\ ~ In "$build_targets_dir/install-linux"
         (defaults (fst (ninja sample_args sample_env))).
Proof.
  split; [vm_compute; reflexivity |].
  split; [vm_compute; reflexivity |].
  split.
  - apply mem_In. vm_compute; reflexivity.
  - intros H. apply mem_In in H. vm_compute in H. discriminate.
Qed.

(** C5: [is_cross] holds exactly when no host triple was given.  A
    completed run declares one [configure-musl] rule, the rule of the
    [configure-musl] node, and its command sets [CC] to the in-tree
    [xgcc] ([xgcc.exe] on Windows) with [-B] into the gcc build directory
    when [is_cross] holds, and to [${target}-gcc] with
    [CROSS_COMPILE=${target}-] otherwise. *)
Theorem musl_compiler_by_mode (a : Args) (env : Env) :
  snd (ninja a env) = None ->
  let g := fst (ninja a env) in
  (is_cross a = true <-> host a = None)
  /\ rule_commands g "configure-musl"
     = [ "rm -rf $musl_dir && mkdir $musl_dir && cd $musl_dir && $env_vars LIBCC="
         ++ q "$root_dir/$gcc_dir/$target/libgcc/libgcc.a" ++ " "
         ++ (if is_cross a
             then "CC=" ++ q ("$root_dir/$gcc_dir/gcc/xgcc"
                              ++ (if String.eqb (platform_system env) "Windows"
                                  then ".exe" else EmptyString)
                              ++ " -B $root_dir/$gcc_dir/gcc")
             else "CC=${target}-gcc CROSS_COMPILE=${target}-")
         ++ " ../musl-$musl_version/configure --prefix= --host=$target && touch ../../$out" ]
  /\ rules_of_node g "$build_targets_dir/configure-musl" = ["configure-musl"].
Proof.
  intros H g. subst g. split.
  - unfold is_cross. destruct (host a); split; congruence.
  - rewrite (ninja_completed _ _ H).
    plan_cases a; destruct (String.eqb (platform_system env) "Windows");
      vm_compute; split; reflexivity.
Qed.

(** C5 at a cross build and at a canadian-cross build for the same
    target. *)
Lemma musl_compiler_by_mode_sample :
  rule_commands (fst (ninja sample_args sample_env)) "configure-musl"
  = [ "rm -rf $musl_dir && mkdir $musl_dir && cd $musl_dir && $env_vars LIBCC="
      ++ q "$root_dir/$gcc_dir/$target/libgcc/libgcc.a"
      ++ " CC=" ++ q "$root_dir/$gcc_dir/gcc/xgcc -B $root_dir/$gcc_dir/gcc"
      ++ " ../musl-$musl_version/configure --prefix= --host=$target && touch ../../$out" ]
  /\ rule_commands (fst (ninja (Args_init canadian_namespace) sample_env))
       "configure-musl"
     = [ "rm -rf $musl_dir && mkdir $musl_dir && cd $musl_dir && $env_vars LIBCC="
         ++ q "$root_dir/$gcc_dir/$target/libgcc/libgcc.a"
         ++ " CC=${target}-gcc CROSS_COMPILE=${target}-"
         ++ " ../musl-$musl_version/configure --prefix= --host=$target && touch ../../$out" ].
Proof.
  assert (H : snd (ninja sample_args sample_env) = None) by (vm_compute; reflexivity).
  assert (H' : snd (ninja (Args_init canadian_namespace) sample_env) = None)
    by (vm_compute; reflexivity).
  split.
  - destruct (musl_compiler_by_mode sample_args sample_env H) as (_ & E & _).
    rewrite E. reflexivity.
  - destruct (musl_compiler_by_mode (Args_init canadian_namespace) sample_env H')
      as (_ & E & _).
    rewrite E. reflexivity.
Defined.

(** C1, as amended: when the first component of the target matches no row
    of the documented table, nothing fails: the kernel architecture is
    that component itself, and a completed run writes it as the [arch]
    variable. *)
Theorem unmapped_arch_passes_through (a : Args) (env : Env) :
  table_lookup kernel_arch_table (first_component (target a)) = None ->
  snd (ninja a env) = None ->
  kernel_arch (target a) = first_component (target a)
  /\ variable_values (fst (ninja a env)) "arch"
     = [Some (first_component (target a))].
Proof.
  intros Hnone Hrun.
  assert (E : kernel_arch (target a) = first_component (target a))
    by (rewrite kernel_arch_table_lookup, Hnone; reflexivity).
  split; [exact E |].
  rewrite (arch_variable a env Hrun), E. reflexivity.
Qed.

(** C1, amended, at [loongarch64-linux-musl]. *)
Lemma unmapped_arch_passes_through_loongarch :
  kernel_arch (target loongarch_args) = "loongarch64"
  /\ variable_values (fst (ninja loongarch_args sample_env)) "arch"
     = [Some "loongarch64"].
Proof.
  apply (unmapped_arch_passes_through loongarch_args sample_env).
  - reflexivity.
  - vm_compute; reflexivity.
Defined.

(** C1, as stated, fails: [loongarch64] matches no row of the table, yet
    the run completes and writes [loongarch64] as the kernel
    architecture. *)
Lemma unmapped_arch_does_not_fail :
  table_lookup kernel_arch_table (first_component (target loongarch_args)) = None
  /\ snd (ninja loongarch_args sample_env) = None
  /\ In (variable "arch" (Some "loongarch64")) (fst (ninja loongarch_args sample_env)).
Proof.
  split; [reflexivity |].
  split; [vm_compute; reflexivity |].
  rewrite (ninja_completed loongarch_args sample_env) by (vm_compute; reflexivity).
  unfold ninja_steps. rewrite !in_app_iff.
  do 3 right. do 6 right. left.
  cbn. right. right. left. reflexivity.
Qed.

(** ** The patch lookup *)

Section PatchCatalog.


Lemma append_assoc (s t u : string) : (s ++ t) ++ u = s ++ t ++ u.
Proof. induction s as [| c s IH]; cbn; [reflexivity | now rewrite IH]. Qed.


End PatchCatalog.



Example patch_catalog_musl :
  Patch_files sample_env (Patch_init "musl" "1.2.4")
  = inr [ "patches/musl-cross-make-fe915821b652a7fa37b34a596f47d8e20bc72338/patches/musl-1.2.4/fix-a.patch";
          "patches/musl-cross-make-fe915821b652a7fa37b34a596f47d8e20bc72338/patches/musl-1.2.4/fix-b.patch" ]
  /\ patch_command_for sample_args sample_env "musl" "1.2.4"
     = inr "patch -p 1 -i ../../patches/musl-cross-make-fe915821b652a7fa37b34a596f47d8e20bc72338/patches/musl-1.2.4/fix-a.patch -i ../../patches/musl-cross-make-fe915821b652a7fa37b34a596f47d8e20bc72338/patches/musl-1.2.4/fix-b.patch"
  /\ patch_command_for sample_args sample_env "gcc" "13.1.0" = inr "true".
Proof. repeat split. Qed.

(** ** Tool discovery *)

Section ToolDiscovery.

Variable env : Env.

Lemma _exists_run (cmd msg : string) (st : tool_state) :
  _exists env cmd msg st
  = (found env cmd,
     {| self := self st; stdout := stdout st ++ [exists_line env cmd msg] |}).
Proof.
  unfold _exists, found, exists_line. now destruct (which env cmd).
Qed.

Lemma bind_run {A B} (c : M A) (k : A -> M B) (st : tool_state) :
  bind c k st = k (fst (c st)) (snd (c st)).
Proof. unfold bind. now destruct (c st). Qed.

(** One step of a run: the next bind, then the call it makes. *)
Ltac step :=
  rewrite bind_run;
  unfold attr, ret, print, modify, set_cc, set_cxx, set_cc_build,
    set_cxx_build, set_make;
  rewrite ?_exists_run;
  cbn [fst snd self stdout].

Lemma check_build_compilers_run (failed : bool) (st : tool_state) :
  check_build_compilers env failed st
  = (negb (found env (cc_build (self st)))
     || negb (found env (cxx_build (self st))) || failed,
     {| self := self st;
        stdout := stdout st
                  ++ [ exists_line env (cc_build (self st))
                         "Checking for build C compiler";
                       exists_line env (cxx_build (self st))
                         "Checking for build C++ compiler" ] |}).
Proof.
  unfold check_build_compilers. repeat step.
  rewrite <- app_assoc.
  destruct (found env (cc_build (self st))),
    (found env (cxx_build (self st))), failed; reflexivity.
Qed.

(** Without a host triple the host compilers become the build
    compilers, whatever they were, and nothing is checked. *)
Lemma resolve_host_compilers_no_host (failed : bool) (st : tool_state) :
  Py.truthy (host (self st)) = false ->
  resolve_host_compilers env failed st
  = (failed,
     {| self := set_tools (self st) (cc_build (self st)) (cxx_build (self st))
                  (cc_build (self st)) (cxx_build (self st)) (_make (self st));
        stdout := stdout st |}).
Proof.
  intros H. unfold resolve_host_compilers. step.
  destruct (host (self st)) as [[| c h] |]; [| discriminate |];
    repeat step; reflexivity.
Qed.

Lemma apply_wrapper_run (w : string) (st : tool_state) :
  apply_wrapper (Some w) st
  = (tt, {| self := wrapped w (self st);
            stdout := stdout st ++ ["Using " ++ w ++ " as compiler wrapper"] |}).
Proof. unfold apply_wrapper. repeat step. reflexivity. Qed.

(** The compiler cache step, case by case. *)
Lemma choose_cache_run (st : tool_state) :
  choose_cache env st
  = if enable_cache (self st) then
      if found env "ccache" then
        (tt, {| self := wrapped "ccache" (self st);
                stdout := stdout st
                          ++ [ exists_line env "ccache" "Checking for tool ccache";
                               "Using ccache as compiler wrapper" ] |})
      else if found env "sccache" then
        (tt, {| self := wrapped "sccache" (self st);
                stdout := stdout st
                          ++ [ exists_line env "ccache" "Checking for tool ccache";
                               exists_line env "sccache" "Checking for tool sccache";
                               "Using sccache as compiler wrapper" ] |})
      else
        (tt, {| self := self st;
                stdout := stdout st
                          ++ [ exists_line env "ccache" "Checking for tool ccache";
                               exists_line env "sccache" "Checking for tool sccache" ] |})
    else (tt, st).
Proof.
  unfold choose_cache. step.
  destruct (enable_cache (self st)); [| reflexivity].
  step. destruct (found env "ccache").
  - step. rewrite apply_wrapper_run. cbn [self stdout].
    rewrite <- app_assoc. reflexivity.
  - repeat step. destruct (found env "sccache").
    + rewrite apply_wrapper_run. cbn [self stdout].
      rewrite <- !app_assoc. reflexivity.
    + cbn [apply_wrapper]. unfold ret. rewrite <- app_assoc. reflexivity.
Qed.

Lemma find_make_run (failed : bool) (st : tool_state) :
  find_make env failed st
  = (match make_choice env with Some _ => failed | None => true end,
     {| self := match make_choice env with
                | Some m => set_tools (self st) (cc (self st)) (cxx (self st))
                              (cc_build (self st)) (cxx_build (self st)) m
                | None => self st
                end;
        stdout := stdout st ++ make_lines env |}).
Proof.
  unfold find_make, make_choice, make_lines. step.
  destruct (found env "make"); [repeat step; reflexivity |].
  step. destruct (found env "gmake");
    [repeat step; rewrite <- app_assoc; reflexivity |].
  step. destruct (found env "mingw32-make");
    repeat step; rewrite <- !app_assoc; reflexivity.
Qed.

Lemma check_tools_run (failed : bool) (st : tool_state) :
  check_tools env failed st
  = (negb (found env "curl") || negb (found env "patch")
     || negb (found env "tar") || failed,
     {| self := self st;
        stdout := stdout st
                  ++ [ exists_line env "curl" "Checking for tool curl";
                       exists_line env "patch" "Checking for tool patch";
                       exists_line env "tar" "Checking for tool tar" ] |}).
Proof.
  unfold check_tools. repeat step. rewrite <- !app_assoc.
  destruct (found env "curl"), (found env "patch"), (found env "tar"), failed;
    reflexivity.
Qed.

Lemma resolve_host_compilers_host (failed : bool) (st : tool_state) (c : ascii) (h : string) :
  host (self st) = Some (String c h) ->
  let a := self st in
  let cc' := Py.lstrip (Py.replace (cc a) "$host" (String c h)) "-" in
  let cxx' := Py.lstrip (Py.replace (cxx a) "$host" (String c h)) "-" in
  resolve_host_compilers env failed st
  = (negb (found env cc') || negb (found env cxx') || failed,
     {| self := set_tools a cc' cxx' (cc_build a) (cxx_build a) (_make a);
        stdout := stdout st
                  ++ [ exists_line env cc' "Checking for host C compiler";
                       exists_line env cxx' "Checking for host C++ compiler" ] |}).
Proof.
  intros H a cc' cxx'. subst a cc' cxx'.
  unfold resolve_host_compilers. step. rewrite H.
  repeat step. rewrite <- app_assoc.
  destruct (found env _), (found env _), failed; reflexivity.
Qed.

(** Two strings that part ways before either ends: the one is no
    prefix of the other, however the other goes on. *)
Lemma prefix_diverge (p s t : string) :
  String.prefix p s = false -> String.prefix s p = false ->
  String.prefix p (s ++ t) = false.
Proof.
  revert s. induction p as [| c p IH]; intros [| d s]; cbn; try discriminate.
  destruct (ascii_dec c d) as [-> | ne].
  - destruct (ascii_dec d d); [apply IH | contradiction].
  - reflexivity.
Qed.

Lemma exists_line_prefix (cmd msg p : string) :
  String.prefix p msg = false -> String.prefix msg p = false ->
  Py.startswith (exists_line env cmd msg) p = false.
Proof.
  intros H1 H2. unfold Py.startswith, exists_line.
  destruct (which env cmd); now apply prefix_diverge.
Qed.


End ToolDiscovery.

(** [try_get_tools] as its first three steps followed by the outcome of
    the last two, which neither read nor change the compiler commands. *)
Lemma try_get_tools_run (env : Env) (st : tool_state) :
  try_get_tools env st
  = let r1 := check_build_compilers env false st in
    let r2 := resolve_host_compilers env (fst r1) (snd r1) in
    let r3 := choose_cache env (snd r2) in
    (negb (found env "curl") || negb (found env "patch")
     || negb (found env "tar")
     || match make_choice env with Some _ => fst r2 | None => true end,
     {| self := match make_choice env with
                | Some m => set_tools (self (snd r3)) (cc (self (snd r3)))
                              (cxx (self (snd r3))) (cc_build (self (snd r3)))
                              (cxx_build (self (snd r3))) m
                | None => self (snd r3)
                end;
        stdout := stdout (snd r3) ++ make_lines env
                  ++ [ exists_line env "curl" "Checking for tool curl";
                       exists_line env "patch" "Checking for tool patch";
                       exists_line env "tar" "Checking for tool tar" ] |}).
Proof.
  unfold try_get_tools. rewrite !bind_run.
  rewrite check_tools_run, find_make_run. cbn [fst snd self stdout].
  rewrite <- app_assoc. reflexivity.
Qed.

Ltac simpl_state :=
  cbn [fst snd self stdout set_tools wrapped without_cache
       no_patches prefix host target cc cxx cc_build cxx_build cc_flags
       cxx_flags ld_flags enable_cache _make app].

(** C9: without a host triple, tool discovery overwrites the host C and
    C++ compilers with the build compilers it was given, behind the cache
    wrapper when one is chosen: the run is the same whatever [--cc] and
    [--cxx] were, and no line of its output reports a check of a host
    compiler. *)
Theorem host_compilers_follow_build (env : Env) (a : Args) (c x : string) :
  Py.truthy (host a) = false ->
  let w := if enable_cache a
           then if found env "ccache" then Some "ccache"
                else if found env "sccache" then Some "sccache"
                else None
           else None in
  let r := try_get_tools env {| self := a; stdout := [] |} in
  try_get_tools env
    {| self := set_tools a c x (cc_build a) (cxx_build a) (_make a);
       stdout := [] |}
  = r
  /\ cc (self (snd r)) = with_wrapper w (cc_build a)
  /\ cxx (self (snd r)) = with_wrapper w (cxx_build a)
  /\ cc_build (self (snd r)) = with_wrapper w (cc_build a)
  /\ cxx_build (self (snd r)) = with_wrapper w (cxx_build a)
  /\ existsb host_check_line (stdout (snd r)) = false.
Proof.
  intros H w r. subst w r. rewrite !try_get_tools_run. cbv zeta.
  rewrite !check_build_compilers_run. simpl_state.
  rewrite !resolve_host_compilers_no_host by exact H. simpl_state.
  split; [reflexivity |].
  rewrite choose_cache_run. simpl_state.
  assert (Hb : forall cmd msg,
             String.prefix "Checking for host" msg = false ->
             String.prefix msg "Checking for host" = false ->
             host_check_line (exists_line env cmd msg) = false)
    by (intros; now apply exists_line_prefix).
  destruct (enable_cache a);
    [destruct (found env "ccache"); [| destruct (found env "sccache")] |];
    unfold make_choice, make_lines, with_wrapper;
    (destruct (found env "make");
     [| destruct (found env "gmake"); [| destruct (found env "mingw32-make")]]);
    simpl_state;
    do 4 (split; [reflexivity |]);
    cbn [existsb]; rewrite ?Hb by reflexivity; reflexivity.
Qed.

(** C9 at a run with [--cc tcc --cxx tc++], no [--host] and the cache
    enabled: the compilers are the build compilers [gcc] and [g++] behind
    [ccache]. *)
Lemma host_compilers_follow_build_sample :
  try_get_tools sample_env
    {| self := set_tools (Args_init cached_namespace) "tcc" "tc++" "gcc" "g++" "make";
       stdout := [] |}
  = try_get_tools sample_env {| self := Args_init cached_namespace; stdout := [] |}
  /\ cc (self (snd (try_get_tools sample_env
                      {| self := Args_init cached_namespace; stdout := [] |})))
     = "ccache gcc"
  /\ cxx (self (snd (try_get_tools sample_env
                       {| self := Args_init cached_namespace; stdout := [] |})))
     = "ccache g++"
  /\ cc_build (self (snd (try_get_tools sample_env
                            {| self := Args_init cached_namespace; stdout := [] |})))
     = "ccache gcc"
  /\ cxx_build (self (snd (try_get_tools sample_env
                             {| self := Args_init cached_namespace; stdout := [] |})))
     = "ccache g++"
  /\ existsb host_check_line
       (stdout (snd (try_get_tools sample_env
                       {| self := Args_init cached_namespace; stdout := [] |})))
     = false.
Proof.
  exact (host_compilers_follow_build sample_env (Args_init cached_namespace)
           "tcc" "tc++" eq_refl).
Defined.

Example try_get_tools_cached :
  try_get_tools sample_env {| self := Args_init cached_namespace; stdout := [] |}
  = (false,
     {| self := set_tools (Args_init cached_namespace)
                  "ccache gcc" "ccache g++" "ccache gcc" "ccache g++" "make";
        stdout := [ "Checking for build C compiler: gcc (/usr/bin/gcc)";
                    "Checking for build C++ compiler: g++ (/usr/bin/g++)";
                    "Checking for tool ccache: ccache (/usr/bin/ccache)";
                    "Using ccache as compiler wrapper";
                    "Checking for tool make: make (/usr/bin/make)";
                    "Checking for tool curl: curl (/usr/bin/curl)";
                    "Checking for tool patch: patch (/usr/bin/patch)";
                    "Checking for tool tar: tar (/usr/bin/tar)" ] |}).
Proof. reflexivity. Qed.

Section CacheWrapper.

Variable env : Env.

Lemma prefix_append (p s t : string) :
String.prefix p s = true -> String.prefix p (s ++ t) = true.
Proof.
revert s. induction p as [| c p IH]; intros [| d s]; cbn; try discriminate.
- intros _. now destruct t.
- reflexivity.
- destruct (ascii_dec c d); [apply IH | discriminate].
Qed.

Lemma exists_line_sccache (cmd : string) :
sccache_check_line (exists_line env cmd "Checking for tool sccache") = true.
Proof.
unfold sccache_check_line, Py.startswith, exists_line.
destruct (which env cmd); now apply prefix_append.
Qed.

Lemma exists_line_not_sccache (cmd msg : string) :
String.prefix "Checking for tool sccache" msg = false ->
String.prefix msg "Checking for tool sccache" = false ->
sccache_check_line (exists_line env cmd msg) = false.
Proof. intros. now apply exists_line_prefix. Qed.

End CacheWrapper.

(** C10: with the cache enabled, the wrapper is [ccache] when it is on
    the path, else [sccache] when that is, else none; [sccache] is looked
    up exactly when [ccache] is missing; the wrapper chosen stands in
    front of all four compiler commands; and the run fails or succeeds as
    it does with the cache disabled, so a missing cache is no missing
    tool. *)
Theorem cache_wrapper_choice (env : Env) (a : Args) :
  enable_cache a = true ->
  let r := try_get_tools env {| self := a; stdout := [] |} in
  let plain := try_get_tools env {| self := without_cache a; stdout := [] |} in
  let w := if found env "ccache" then Some "ccache"
           else if found env "sccache" then Some "sccache"
           else None in
  fst r = fst plain
  /\ cc (self (snd r)) = with_wrapper w (cc (self (snd plain)))
  /\ cxx (self (snd r)) = with_wrapper w (cxx (self (snd plain)))
  /\ cc_build (self (snd r)) = with_wrapper w (cc_build (self (snd plain)))
  /\ cxx_build (self (snd r)) = with_wrapper w (cxx_build (self (snd plain)))
  /\ _make (self (snd r)) = _make (self (snd plain))
  /\ existsb sccache_check_line (stdout (snd r)) = negb (found env "ccache").
Proof.
  intros Hc r plain w. subst r plain w. rewrite !try_get_tools_run. cbv zeta.
  rewrite !check_build_compilers_run. simpl_state.
  assert (Hs : forall cmd msg,
             String.prefix "Checking for tool sccache" msg = false ->
             String.prefix msg "Checking for tool sccache" = false ->
             sccache_check_line (exists_line env cmd msg) = false)
    by (intros; now apply exists_line_not_sccache).
  destruct (host a) as [[| c h] |] eqn:Hh.
  1, 3: rewrite !resolve_host_compilers_no_host by (simpl_state; now rewrite Hh).
  3: rewrite (resolve_host_compilers_host env _
                {| self := a; stdout := _ |} c h Hh),
       (resolve_host_compilers_host env _
                {| self := without_cache a; stdout := _ |} c h Hh).
  all: cbv zeta; simpl_state; rewrite !choose_cache_run; simpl_state; rewrite Hc.
  all: destruct (found env "ccache"); [| destruct (found env "sccache")].
  all: unfold make_choice, make_lines.
  all: destruct (found env "make");
    [| destruct (found env "gmake"); [| destruct (found env "mingw32-make")]].
  all: simpl_state; unfold with_wrapper; repeat (split; [reflexivity |]).
  all: rewrite ?existsb_app; cbn [existsb];
    rewrite ?exists_line_sccache, ?Hs by reflexivity; reflexivity.
Qed.

(** C10 on a machine with [sccache] and without [ccache]: [sccache] is
    the wrapper, and the run does not fail. *)
Lemma cache_wrapper_choice_sccache :
  enable_cache (Args_init cached_namespace) = true
  /\ fst (try_get_tools sccache_env
            {| self := Args_init cached_namespace; stdout := [] |})
     = false
  /\ cc_build (self (snd (try_get_tools sccache_env
                            {| self := Args_init cached_namespace; stdout := [] |})))
     = "sccache gcc"
  /\ existsb sccache_check_line
       (stdout (snd (try_get_tools sccache_env
                       {| self := Args_init cached_namespace; stdout := [] |})))
     = true.
Proof.
  split; [reflexivity |].
  destruct (cache_wrapper_choice sccache_env (Args_init cached_namespace) eq_refl)
    as (Hf & _ & _ & Hcb & _ & _ & Hs).
  split; [rewrite Hf; reflexivity |].
  split; [rewrite Hcb; reflexivity |].
  rewrite Hs. reflexivity.
Defined.

Example try_get_tools_no_cache_found :
  let env := {| which := fun cmd =>
                  if Py.mem cmd ["ccache"; "sccache"] then None
                  else Some ("/usr/bin/" ++ cmd);
                fs := tree_files (fun _ => None);
                cpu_count := None;
                platform_system := "Linux";
                cwd := "/work" |} in
  try_get_tools env {| self := Args_init cached_namespace; stdout := [] |}
  = (false,
     {| self := set_tools (Args_init cached_namespace) "gcc" "g++" "gcc" "g++" "make";
        stdout := [ "Checking for build C compiler: gcc (/usr/bin/gcc)";
                    "Checking for build C++ compiler: g++ (/usr/bin/g++)";
                    "Checking for tool ccache: ccache (doesn't exists)";
                    "Checking for tool sccache: sccache (doesn't exists)";
                    "Checking for tool make: make (/usr/bin/make)";
                    "Checking for tool curl: curl (/usr/bin/curl)";
                    "Checking for tool patch: patch (/usr/bin/patch)";
                    "Checking for tool tar: tar (/usr/bin/tar)" ] |}).
Proof. reflexivity. Qed.

(** ** Further properties of the plan *)

(** X1: the binutils flag list is the base flags, then the host flag when
    a non-empty host triple is configured, then the user's extra flags. *)
Theorem binutils_flags_composition (args : Namespace) :
  binutils_flags (Args_init args)
  = (binutils_base_flags ++ host_flag args ++ user_binutils_flags args)%list.
Proof.
  cbn [binutils_flags Args_init]. unfold init_binutils_flags.
  rewrite append_if_app. unfold extend_split, user_binutils_flags, host_flag.
  destruct (arg_binutils_flags args) as [[| c f] |]; cbn [Py.truthy];
    rewrite <- ?app_assoc, ?app_nil_r; reflexivity.
Qed.

(** X2: a completed run writes its build statements in dependency order:
    every input and implicit dependency of a statement is the output of a
    statement written before it (or one of the two directories the clean
    targets delete), and no output is written twice.  So every
    predecessor exists and the graph has no cycle. *)
Theorem plan_in_dependency_order (a : Args) (env : Env) :
  snd (ninja a env) = None ->
  in_dependency_order ["$build_dir"; "$download_dir"] (fst (ninja a env)) = true.
Proof.
  intros H. rewrite (ninja_completed _ _ H).
  plan_cases a; vm_compute; reflexivity.
Qed.

(** X2 at the sample run. *)
Lemma plan_in_dependency_order_sample :
  in_dependency_order ["$build_dir"; "$download_dir"]
    (fst (ninja sample_args sample_env)) = true.
Proof.
  apply (plan_in_dependency_order sample_args sample_env).
  vm_compute; reflexivity.
Defined.

(** ** Further properties of tool discovery *)

Section ToolReport.

Variables (env : Env) (a : Args) (out : list string).

Lemma resolve_host_compilers_run (failed : bool) (st : tool_state) :
  resolve_host_compilers env failed st
  = (match host_compilers (self st) with
     | Some (c, x) => negb (found env c) || negb (found env x) || failed
     | None => failed
     end,
     {| self := match host_compilers (self st) with
                | Some (c, x) =>
                    set_tools (self st) c x (cc_build (self st))
                      (cxx_build (self st)) (_make (self st))
                | None =>
                    set_tools (self st) (cc_build (self st)) (cxx_build (self st))
                      (cc_build (self st)) (cxx_build (self st)) (_make (self st))
                end;
        stdout := stdout st ++ host_lines env (self st) |}).
Proof.
  unfold host_lines, host_compilers.
  destruct (host (self st)) as [[| c h] |] eqn:Hh.
  - rewrite resolve_host_compilers_no_host by now rewrite Hh.
    now rewrite app_nil_r.
  - now rewrite (resolve_host_compilers_host env failed st c h Hh).
  - rewrite resolve_host_compilers_no_host by now rewrite Hh.
    now rewrite app_nil_r.
Qed.

End ToolReport.

(** The value [try_get_tools] returns, for use in later proofs. *)
Lemma try_get_tools_failed_eq (env : Env) (a : Args) (out : list string) :
  fst (try_get_tools env {| self := a; stdout := out |}) = tools_missing env a.
Proof.
  rewrite try_get_tools_run. cbv zeta. cbn [fst].
  rewrite check_build_compilers_run. cbn [fst snd self].
  rewrite resolve_host_compilers_run. cbn [fst snd self].
  unfold tools_missing, make_choice.
  destruct (host_compilers a) as [[c x] |];
    destruct (found env "make"), (found env "gmake"), (found env "mingw32-make"),
      (found env "curl"), (found env "patch"), (found env "tar"),
      (found env (cc_build a)), (found env (cxx_build a));
    cbn; rewrite ?orb_true_r, ?orb_false_r; reflexivity.
Qed.

(** X3: [try_get_tools] returns [failed] exactly when a build compiler, a
    host compiler (when a host triple is given), every one of make, gmake
    and mingw32-make, or one of curl, patch and tar is not on the path;
    the compiler caches do not count. *)
Theorem try_get_tools_failed (env : Env) (a : Args) (out : list string) :
  fst (try_get_tools env {| self := a; stdout := out |}) = tools_missing env a.
Proof. apply try_get_tools_failed_eq. Qed.

(** X4: [try_get_tools] looks every tool up and prints one line for each,
    whatever was missing before it: the build compilers, the host
    compilers when a host triple is given, the caches when enabled, make
    (then gmake, then mingw32-make, while none is found), curl, patch and
    tar, in this order. *)
Theorem try_get_tools_report (env : Env) (a : Args) (out : list string) :
  stdout (snd (try_get_tools env {| self := a; stdout := out |}))
  = (out
     ++ [ exists_line env (cc_build a) "Checking for build C compiler";
          exists_line env (cxx_build a) "Checking for build C++ compiler" ]
     ++ host_lines env a
     ++ cache_lines env a
     ++ make_lines env
     ++ [ exists_line env "curl" "Checking for tool curl";
          exists_line env "patch" "Checking for tool patch";
          exists_line env "tar" "Checking for tool tar" ])%list.
Proof.
  rewrite try_get_tools_run. cbv zeta. cbn [snd stdout].
  rewrite check_build_compilers_run. cbn [fst snd self stdout].
  rewrite resolve_host_compilers_run. cbn [fst snd self stdout].
  rewrite choose_cache_run. unfold cache_lines, cache_choice, host_lines.
  destruct (host_compilers a) as [[c x] |]; simpl_state;
    (destruct (enable_cache a);
     [destruct (found env "ccache"); [| destruct (found env "sccache")] |]);
    simpl_state; rewrite <- ?app_assoc; simpl_state; reflexivity.
Qed.

(** ** When the plan is cut short *)


(** Three runs cut short: [build.ninja] is a directory; the patch path of
    gcc is a regular file; the version of gcc is too long for a file
    name. *)
Example ninja_raises_samples :
  ninja sample_args build_ninja_dir_env = ([], Some IsADirectoryError)
  /\ snd (ninja sample_args broken_bundle_env) = Some NotADirectoryError
  /\ snd (ninja long_version_args long_name_env)
     = Some (OSError ENAMETOOLONG None).
Proof. repeat split; vm_compute; reflexivity. Qed.

(** ** The host compilers and the user's flags *)

(** The composition of the compiler's flag list, for use in later proofs. *)
Lemma gcc_flags_composition_eq (args : Namespace) :
  gcc_flags (Args_init args)
  = (gcc_base_flags ++ host_flag args ++ arch_flags (arg_target args)
     ++ user_gcc_flags args)%list.
Proof.
  cbn [gcc_flags Args_init]. unfold init_gcc_flags.
  rewrite extend_split_app, append_float_abi_app, append_mips_abi_app.
  rewrite !append_if_app.
  unfold arch_flags, host_flag, fdpic_flag, x32_flag, ppc64_flag, s390x_flag.
  rewrite <- !app_assoc. reflexivity.
Qed.

Section HostAndFlags.

Lemma replace_default_cc (h tool : string) :
  Py.replace ("$host-" ++ tool) "$host" h
  = h ++ Py.replace ("-" ++ tool) "$host" h.
Proof. reflexivity. Qed.

Lemma lstrip_keeps (c : ascii) (s : string) :
  c <> "-"%char -> Py.lstrip (String c s) "-" = String c s.
Proof.
  intros H. cbn. apply Ascii.eqb_neq in H. now rewrite H.
Qed.

(** Splitting at single spaces and joining with single spaces gives the
    string back. *)
Lemma split_go_join (f : string) :
  String.concat " " (fst (Py.split_go " " f 0) :: snd (Py.split_go " " f 0)) = f.
Proof.
  induction f as [| c f IH]; [reflexivity |].
  cbn [Py.split_go String.prefix String.length Nat.sub].
  destruct (ascii_dec " " c) as [<- | ne].
  - assert (E : String.prefix EmptyString f = true) by now destruct f.
    rewrite E. destruct (Py.split_go " " f 0) as [p ps].
    cbn [fst snd] in *.
    change (String.concat " " (EmptyString :: p :: ps))
      with (" " ++ String.concat " " (p :: ps)).
    now rewrite IH.
  - destruct (Py.split_go " " f 0) as [p ps]. cbn [fst snd] in *.
    rewrite <- IH. destruct ps as [| p' ps]; reflexivity.
Qed.

Lemma join_split_space (f : string) : Py.join " " (Py.split f " ") = f.
Proof.
  unfold Py.join, Py.split. pose proof (split_go_join f) as H.
  destruct (Py.split_go " " f 0). exact H.
Qed.

Lemma split_cons (f sep : string) :
  exists p ps, Py.split f sep = p :: ps.
Proof. unfold Py.split. destruct (Py.split_go sep f 0); eauto. Qed.

Lemma join_app (sep : string) (x y : string) (l1 l2 : list string) :
  Py.join sep ((x :: l1) ++ y :: l2)
  = Py.join sep (x :: l1) ++ sep ++ Py.join sep (y :: l2).
Proof.
  unfold Py.join. revert x. induction l1 as [| z l1 IH]; intros x.
  - reflexivity.
  - change (String.concat sep ((x :: z :: l1) ++ y :: l2))
      with (x ++ sep ++ String.concat sep ((z :: l1) ++ y :: l2)).
    rewrite IH.
    change (String.concat sep (x :: z :: l1))
      with (x ++ sep ++ String.concat sep (z :: l1)).
    now rewrite !append_assoc.
Qed.

End HostAndFlags.

(** X6: with a host triple that does not start with a hyphen and the
    default [--cc] and [--cxx], the host compilers are [<host>-gcc] and
    [<host>-g++]; with the cache disabled these are the commands tool
    discovery leaves in [self.cc] and [self.cxx], and the build compilers
    stay as given. *)
Theorem default_host_compilers (env : Env) (a : Args) (c : ascii) (h : string)
  (out : list string) :
  host a = Some (String c h) ->
  c <> "-"%char ->
  cc a = "$host-gcc" ->
  cxx a = "$host-g++" ->
  enable_cache a = false ->
  let st := snd (try_get_tools env {| self := a; stdout := out |}) in
  host_compilers a = Some (String c h ++ "-gcc", String c h ++ "-g++")
  /\ cc (self st) = String c h ++ "-gcc"
  /\ cxx (self st) = String c h ++ "-g++"
  /\ cc_build (self st) = cc_build a
  /\ cxx_build (self st) = cxx_build a.
Proof.
  intros Hh Hc Hcc Hcxx Hcache st.
  assert (E : host_compilers a = Some (String c h ++ "-gcc", String c h ++ "-g++")).
  { unfold host_compilers. rewrite Hh, Hcc, Hcxx.
    change "$host-gcc" with ("$host-" ++ "gcc").
    change "$host-g++" with ("$host-" ++ "g++").
    rewrite !replace_default_cc.
    change (Py.replace ("-" ++ "gcc") "$host" (String c h)) with "-gcc".
    change (Py.replace ("-" ++ "g++") "$host" (String c h)) with "-g++".
    cbn [String.append]. now rewrite !lstrip_keeps. }
  split; [exact E |].
  subst st. rewrite try_get_tools_run. cbv zeta. cbn [snd self].
  rewrite check_build_compilers_run. cbn [fst snd self stdout].
  rewrite resolve_host_compilers_run. cbn [fst snd self stdout].
  rewrite choose_cache_run. rewrite E. simpl_state. rewrite Hcache.
  simpl_state. unfold make_choice.
  destruct (found env "make");
    [| destruct (found env "gmake"); [| destruct (found env "mingw32-make")]];
    simpl_state; repeat split; reflexivity.
Qed.

(** X6 at [--host x86_64-w64-mingw32]. *)
Lemma default_host_compilers_mingw :
  host_compilers (Args_init canadian_namespace)
  = Some ("x86_64-w64-mingw32-gcc", "x86_64-w64-mingw32-g++").
Proof.
  apply (default_host_compilers sample_env (Args_init canadian_namespace)
           "x" "86_64-w64-mingw32" []); try reflexivity.
  discriminate.
Defined.

(** The one [configure-gcc] rule of a completed run. *)
Lemma configure_gcc_rule (a : Args) (env : Env) :
  snd (ninja a env) = None ->
  rule_commands (fst (ninja a env)) "configure-gcc"
  = [ "rm -rf $build_sysroot_dir && mkdir -p $build_sysroot_dir/usr/include && rm -rf $gcc_dir && mkdir $gcc_dir && cd $gcc_dir && $env_vars ../gcc-$gcc_version/configure "
      ++ Py.join " " (gcc_flags a) ++ " " ++ Py.join " " (gcc_vars a)
      ++ " && touch ../../$out" ].
Proof.
  intros Hrun. rewrite (ninja_completed _ _ Hrun).
  plan_cases a; vm_compute; reflexivity.
Qed.

(** X7: the user's [--gcc-flags] reach the gcc configure command as
    typed, after the flags the script composes: splitting at single
    spaces and joining with single spaces changes nothing, repeated
    spaces included. *)
Theorem user_gcc_flags_verbatim (args : Namespace) (env : Env) (c : ascii)
  (f : string) :
  arg_gcc_flags args = Some (String c f) ->
  snd (ninja (Args_init args) env) = None ->
  rule_commands (fst (ninja (Args_init args) env)) "configure-gcc"
  = [ "rm -rf $build_sysroot_dir && mkdir -p $build_sysroot_dir/usr/include && rm -rf $gcc_dir && mkdir $gcc_dir && cd $gcc_dir && $env_vars ../gcc-$gcc_version/configure "
      ++ Py.join " " (gcc_base_flags ++ host_flag args
                      ++ arch_flags (arg_target args))
      ++ " " ++ String c f ++ " "
      ++ Py.join " " (gcc_vars (Args_init args))
      ++ " && touch ../../$out" ].
Proof.
  intros Hf Hrun.
  assert (E : Py.join " " (gcc_flags (Args_init args))
              = Py.join " " (gcc_base_flags ++ host_flag args
                             ++ arch_flags (arg_target args))
                ++ " " ++ String c f).
  { rewrite gcc_flags_composition_eq. unfold user_gcc_flags. rewrite Hf.
    destruct (split_cons (String c f) " ") as (p & ps & Hs).
    rewrite <- (join_split_space (String c f)) at 2. rewrite Hs.
    rewrite !app_assoc.
    remember ((gcc_base_flags ++ host_flag args) ++ arch_flags (arg_target args))%list
      as composed eqn:Hcomposed.
    destruct composed as [| x l1]; [discriminate |].
    apply join_app. }
  rewrite (configure_gcc_rule _ _ Hrun), E.
  now rewrite !append_assoc.
Qed.

(** X7 at [--gcc-flags --enable-lto]. *)
Lemma user_gcc_flags_verbatim_lto :
  rule_commands (fst (ninja (Args_init canadian_namespace) sample_env))
    "configure-gcc"
  = [ "rm -rf $build_sysroot_dir && mkdir -p $build_sysroot_dir/usr/include && rm -rf $gcc_dir && mkdir $gcc_dir && cd $gcc_dir && $env_vars ../gcc-$gcc_version/configure "
      ++ Py.join " " (gcc_base_flags ++ host_flag canadian_namespace
                      ++ arch_flags (arg_target canadian_namespace))
      ++ " " ++ "--enable-lto" ++ " "
      ++ Py.join " " (gcc_vars (Args_init canadian_namespace))
      ++ " && touch ../../$out" ].
Proof.
  apply (user_gcc_flags_verbatim canadian_namespace sample_env "-" "-enable-lto").
  - reflexivity.
  - vm_compute; reflexivity.
Defined.

(** ** Further properties of the graph *)

(** X8: in a completed run the bootstrap stages are chained as the
    multi-stage build needs them: the final compiler build depends on the
    shared libgcc, that on the cleanup of the static libgcc, that on the
    sysroot install of musl, then the musl build, the static libgcc, the
    musl headers, the musl configure, the first compiler build, the gcc
    configure, the binutils build, its configure, its extract and its
    download; every stage but the two configure steps has this one
    dependency only. *)
Theorem bootstrap_order (a : Args) (env : Env) :
  snd (ninja a env) = None ->
  let g := fst (ninja a env) in
  chained g bootstrap_chain = true
  /\ forallb (fun x => Nat.eqb (List.length (dependencies g x)) 1)
       (filter (fun x => negb (Py.mem x [ "$build_targets_dir/configure-musl";
                                          "$build_targets_dir/configure-gcc";
                                          "$binutils_tarball" ]))
               bootstrap_chain) = true
  /\ dependencies g "$build_targets_dir/configure-musl"
     = [ "$build_targets_dir/extract-musl";
         "$build_targets_dir/build-gcc-all-gcc" ].
Proof.
  intros H g. subst g. rewrite (ninja_completed _ _ H).
  plan_cases a; vm_compute; repeat split.
Qed.

(** X8 at the sample run. *)
Lemma bootstrap_order_sample :
  chained (fst (ninja sample_args sample_env)) bootstrap_chain = true.
Proof.
  apply (bootstrap_order sample_args sample_env).
  vm_compute; reflexivity.
Defined.

Section InstallNodes.

Variables (a : Args) (env : Env).
Hypothesis completed : snd (ninja a env) = None.

Lemma not_installing_closed :
  closed_under not_installing (edges (fst (ninja a env))) = true.
Proof.
  rewrite (ninja_completed _ _ completed).
  plan_cases a; vm_compute; reflexivity.
Qed.

End InstallNodes.

(** X9: in a completed run the four install nodes are built by the four
    install rules, and no other node is; the commands of these rules run
    the install targets into [$install_dir], and no other rule command
    names [$install_dir], the two configure commands put aside, which
    carry the configure flags.  The four nodes are the dependencies of
    the [install] alias, and no dependency path leads to one of them from
    any other node, the default targets among them. *)
Theorem install_only_through_alias (a : Args) (env : Env) :
  snd (ninja a env) = None ->
  let g := fst (ninja a env) in
  dependencies g "install" = install_nodes
  /\ forallb not_installing (defaults g) = true
  /\ (forall n i, not_installing n = true -> In i install_nodes ->
        ~ dep_path g n i)
  /\ map (rules_of_node g) install_nodes
     = [ ["install-binutils"]; ["install-gcc"]; ["install-musl"]; ["install-linux"] ]
  /\ forallb (fun nr => Bool.eqb (Py.mem (snd nr) install_rules)
                                 (Py.mem (fst nr) install_nodes))
       (node_rules g) = true
  /\ forallb (fun rc => Py.mem (fst rc) flag_rules
                        || Bool.eqb (names_install_dir (snd rc))
                                    (Py.mem (fst rc) install_rules))
       (rules g) = true
  /\ rule_commands g "install-binutils"
     = ["cd $binutils_dir && $env_vars $make_command install DESTDIR=$install_dir && touch ../../$out"]
  /\ rule_commands g "install-gcc"
     = ["cd $gcc_dir && $env_vars $make_command install DESTDIR=$install_dir && touch ../../$out"]
  /\ rule_commands g "install-musl"
     = ["cd $musl_dir && $env_vars $make_command install DESTDIR=$install_dir/$target && touch ../../$out"]
  /\ rule_commands g "install-linux"
     = ["rm -rf $build_dir/linux-build && mkdir $build_dir/linux-build && cd $linux_dir && $env_vars $make_command headers_install O=$root_dir/$build_dir/linux-build ARCH=$arch INSTALL_HDR_PATH=$install_dir/$target && touch ../../$out"].
Proof.
  intros H g. split; [| split; [| split]].
  - subst g. rewrite (ninja_completed _ _ H).
    plan_cases a; vm_compute; reflexivity.
  - subst g. rewrite (ninja_completed _ _ H).
    plan_cases a; vm_compute; reflexivity.
  - intros n i Hn Hi Hp.
    pose proof (closed_under_path g _ n i (not_installing_closed a env H) Hp Hn) as E.
    apply mem_In in Hi. unfold not_installing in E. rewrite Hi in E. discriminate.
  - subst g. rewrite (ninja_completed _ _ H).
    plan_cases a; destruct (String.eqb (platform_system env) "Windows");
      vm_compute; repeat split.
Qed.

(** X9 at the sample run: the final compiler build does not reach the
    compiler install, and its rule does not name the install prefix. *)
Lemma install_only_through_alias_sample :
  (dep_path (fst (ninja sample_args sample_env))
     "$build_targets_dir/build-gcc" "$build_targets_dir/install-gcc" -> False)
  /\ rules_of_node (fst (ninja sample_args sample_env))
       "$build_targets_dir/install-gcc"
     = ["install-gcc"]
  /\ map names_install_dir
       (rule_commands (fst (ninja sample_args sample_env)) "build-gcc")
     = [false].
Proof.
  assert (H : snd (ninja sample_args sample_env) = None) by (vm_compute; reflexivity).
  destruct (install_only_through_alias sample_args sample_env H)
    as (_ & _ & P & R & _).
  split; [| split].
  - apply P; [reflexivity | cbn; tauto].
  - exact (f_equal (fun l => nth 1 l []) R).
  - vm_compute; reflexivity.
Defined.

(** X10: a completed run declares every rule once and before the first
    build statement that uses it, and declares no rule that no build
    statement uses. *)
Theorem rules_declared_and_used (a : Args) (env : Env) :
  snd (ninja a env) = None ->
  let g := fst (ninja a env) in
  rules_before_use [] g = true
  /\ forallb (fun r => Py.mem r (flat_map call_rule_used g))
       (flat_map call_rule_declared g) = true.
Proof.
  intros H g. subst g. rewrite (ninja_completed _ _ H).
  plan_cases a; vm_compute; split; reflexivity.
Qed.

(** X10 at the sample run. *)
Lemma rules_declared_and_used_sample :
  rules_before_use [] (fst (ninja sample_args sample_env)) = true.
Proof.
  apply (rules_declared_and_used sample_args sample_env).
  vm_compute; reflexivity.
Defined.

(** ** The entry point *)

Section Main.

Lemma main_tools_and_plan_ended (a : Args) (e : Env) (out : list string)
  (called : bool) :
  ended (main_tools_and_plan a e out called)
  = if tools_missing e a then Exited 1
    else Wrote
           (fst (ninja (self (snd (try_get_tools e {| self := a; stdout := out |}))) e))
           (snd (ninja (self (snd (try_get_tools e {| self := a; stdout := out |}))) e)).
Proof.
  unfold main_tools_and_plan.
  rewrite <- (try_get_tools_failed_eq e a out).
  destruct (try_get_tools e {| self := a; stdout := out |}) as [failed st].
  cbn [fst snd]. destruct failed; [reflexivity |].
  now destruct (ninja (self st) e).
Qed.

Lemma main_tools_and_plan_printed (a : Args) (e : Env) (out : list string)
  (called : bool) :
  tools_missing e a = true ->
  exists out',
    printed (main_tools_and_plan a e out called)
    = (out' ++ ["Error: Some tools do not exist. You may need add them to your PATH."])%list.
Proof.
  unfold main_tools_and_plan. rewrite <- (try_get_tools_failed_eq e a out).
  destruct (try_get_tools e {| self := a; stdout := out |}) as [failed st].
  cbn [fst]. intros ->. cbn [printed]. eauto.
Qed.

Lemma main_tools_and_plan_requested (a : Args) (e : Env) (out : list string)
  (called : bool) :
  requested (main_tools_and_plan a e out called) = called.
Proof.
  unfold main_tools_and_plan.
  destruct (try_get_tools e {| self := a; stdout := out |}) as [failed st].
  destruct failed; [reflexivity |]. now destruct (ninja (self st) e).
Qed.

(** The commands tool discovery leaves in [self]. *)
Lemma try_get_tools_compilers (env : Env) (a : Args) (out : list string) :
  let st := snd (try_get_tools env {| self := a; stdout := out |}) in
  cc (self st) = with_wrapper (run_wrapper env a) (resolved_cc a)
  /\ cxx (self st) = with_wrapper (run_wrapper env a) (resolved_cxx a)
  /\ cc_build (self st) = with_wrapper (run_wrapper env a) (cc_build a)
  /\ cxx_build (self st) = with_wrapper (run_wrapper env a) (cxx_build a)
  /\ _make (self st)
     = match make_choice env with Some m => m | None => _make a end.
Proof.
  intros st. subst st. rewrite try_get_tools_run. cbv zeta. cbn [snd self].
  rewrite check_build_compilers_run. cbn [fst snd self stdout].
  rewrite resolve_host_compilers_run. cbn [fst snd self stdout].
  rewrite choose_cache_run.
  unfold run_wrapper, cache_choice, resolved_cc, resolved_cxx, with_wrapper.
  destruct (host_compilers a) as [[c x] |]; simpl_state;
    (destruct (enable_cache a);
     [destruct (found env "ccache"); [| destruct (found env "sccache")] |]);
    simpl_state; destruct (make_choice env); simpl_state; repeat split.
Qed.

(** The compiler and make variables of a completed plan. *)
Lemma plan_tool_variables (a : Args) (env : Env) :
  snd (ninja a env) = None ->
  variable_values (fst (ninja a env)) "cc" = [Some (cc a)]
  /\ variable_values (fst (ninja a env)) "cxx" = [Some (cxx a)]
  /\ variable_values (fst (ninja a env)) "make_command"
     = [Some (_make a ++ " -j " ++ Py.str_opt_nat (cpu_count env)
              ++ " MULTILIB_OSDIRNAMES= INFO_DEPS= infodir= ac_cv_prog_lex_root=lex.yy")].
Proof.
  intros H. rewrite (ninja_completed _ _ H).
  plan_cases a; vm_compute; repeat split.
Qed.

End Main.

(** X11: [main] ends in [sys.exit(1)] exactly when looking up and
    fetching the patch bundle did not raise and a required tool is
    missing; it then calls [Args.ninja] not at all, and the last line it
    prints is the error message. *)
Theorem main_exits_on_missing_tool (args : Namespace) (w : World) :
  (ended (main args w) = Exited 1
   <-> fetch_raises args w = false
       /\ tools_missing (machine w) (Args_init args) = true)
  /\ match ended (main args w) with
     | Exited code =>
         code = 1
         /\ exists out,
              printed (main args w)
              = (out ++ ["Error: Some tools do not exist. You may need add them to your PATH."])%list
     | _ => True
     end.
Proof.
  assert (Hgen : forall e out called,
             tools_missing e (Args_init args)
             = tools_missing (machine w) (Args_init args) ->
             (ended (main_tools_and_plan (Args_init args) e out called) = Exited 1
              <-> tools_missing (machine w) (Args_init args) = true)
             /\ match ended (main_tools_and_plan (Args_init args) e out called) with
                | Exited code =>
                    code = 1
                    /\ exists out',
                         printed (main_tools_and_plan (Args_init args) e out called)
                         = (out' ++ ["Error: Some tools do not exist. You may need add them to your PATH."])%list
                | _ => True
                end).
  { intros e out called He. rewrite main_tools_and_plan_ended, He.
    destruct (tools_missing (machine w) (Args_init args)) eqn:Hm.
    - split; [split; auto |]. split; [reflexivity |].
      apply main_tools_and_plan_printed. congruence.
    - split; [split; discriminate | exact I]. }
  unfold main, fetch_raises. cbn [no_patches Args_init].
  destruct (arg_no_patches args); cbn [negb andb].
  - destruct (Hgen (machine w) [] false eq_refl) as [H1 H2].
    split; [rewrite H1; tauto | exact H2].
  - destruct (Path_exists (machine w) patches_dir) as [e | [|]].
    + split; [split; [discriminate | intros [? _]; discriminate] | exact I].
    + destruct (Hgen (machine w)
                  ["Patches are already downloaded at " ++ patches_dir] false eq_refl)
        as [H1 H2].
      split; [rewrite H1; tauto | exact H2].
    + destruct (fetch w) as [| | tree].
      * split; [split; [discriminate | intros [? _]; discriminate] | exact I].
      * split; [split; [discriminate | intros [? _]; discriminate] | exact I].
      * destruct (Hgen (with_fs (machine w) tree)
                    [ "Downloading patches from " ++ patches_url;
                      "Extracting patches at " ++ patches_dir ] true eq_refl)
          as [H1 H2].
        split; [rewrite H1; tauto | exact H2].
Qed.

Example main_without_tar :
  ended (main (default_namespace "arm-linux-musleabihf") no_tar_world) = Exited 1
  /\ requested (main (default_namespace "arm-linux-musleabihf") no_tar_world) = true.
Proof. split; vm_compute; reflexivity. Qed.

(** X12: [main] calls [requests.get] exactly when patches are enabled and
    [Path.exists] reports that the bundle directory does not exist: with
    [--no-patches], with the directory in place, or when [Path.exists]
    raises, nothing is fetched. *)
Theorem main_fetches_once (args : Namespace) (w : World) :
  requested (main args w)
  = negb (arg_no_patches args)
    && match Path_exists (machine w) patches_dir with
       | inr false => true
       | _ => false
       end.
Proof.
  unfold main. cbn [no_patches Args_init].
  destruct (arg_no_patches args); cbn [negb andb];
    [| destruct (Path_exists (machine w) patches_dir) as [e | [|]];
       [| | destruct (fetch w) as [| | tree]]];
    rewrite ?main_tools_and_plan_requested; reflexivity.
Qed.

(** X13: when [main] writes the whole plan, the [cc] and [cxx] variables
    of the plan are the compilers tool discovery settled on (the host
    compilers with [$host] filled in when a host triple is given, the
    build compilers otherwise) behind the cache wrapper when one was
    chosen, and [make_command] starts with the first of make, gmake and
    mingw32-make that is on the path. *)
Theorem main_plan_tools (args : Namespace) (w : World) (calls : list call) :
  ended (main args w) = Wrote calls None ->
  let a := Args_init args in
  let e := machine w in
  variable_values calls "cc"
  = [Some (with_wrapper (run_wrapper e a) (resolved_cc a))]
  /\ variable_values calls "cxx"
     = [Some (with_wrapper (run_wrapper e a) (resolved_cxx a))]
  /\ exists m,
       make_choice e = Some m
       /\ variable_values calls "make_command"
          = [Some (m ++ " -j " ++ Py.str_opt_nat (cpu_count e)
                   ++ " MULTILIB_OSDIRNAMES= INFO_DEPS= infodir= ac_cv_prog_lex_root=lex.yy")].
Proof.
  intros H a e.
  assert (Hgen : forall e' out called,
             which e' = which e -> cpu_count e' = cpu_count e ->
             ended (main_tools_and_plan a e' out called) = Wrote calls None ->
             variable_values calls "cc"
             = [Some (with_wrapper (run_wrapper e a) (resolved_cc a))]
             /\ variable_values calls "cxx"
                = [Some (with_wrapper (run_wrapper e a) (resolved_cxx a))]
             /\ exists m,
                  make_choice e = Some m
                  /\ variable_values calls "make_command"
                     = [Some (m ++ " -j " ++ Py.str_opt_nat (cpu_count e)
                              ++ " MULTILIB_OSDIRNAMES= INFO_DEPS= infodir= ac_cv_prog_lex_root=lex.yy")]).
  { intros e' out called Hw Hcpu He.
    rewrite main_tools_and_plan_ended in He.
    destruct (tools_missing e' a) eqn:Hm; [discriminate |].
    injection He as Hcalls Hraised. subst calls.
    destruct (plan_tool_variables _ _ Hraised) as (Hcc & Hcxx & Hmk).
    destruct (try_get_tools_compilers e' a out) as (Ecc & Ecxx & _ & _ & Emk).
    rewrite Hcc, Hcxx, Hmk, Ecc, Ecxx, Emk, Hcpu.
    assert (Hrw : run_wrapper e' a = run_wrapper e a)
      by (unfold run_wrapper, cache_choice, found; now rewrite Hw).
    assert (Hmc : make_choice e' = make_choice e)
      by (unfold make_choice, found; now rewrite Hw).
    rewrite Hrw, Hmc.
    split; [reflexivity | split; [reflexivity |]].
    destruct (make_choice e) as [m |] eqn:Hc; [exists m; split; reflexivity |].
    exfalso. revert Hm Hmc.
    unfold tools_missing, make_choice.
    destruct (found e' "make"), (found e' "gmake"), (found e' "mingw32-make");
      try discriminate.
    intros Hm _.
    repeat (apply orb_false_iff in Hm; destruct Hm as [Hm ?]);
      cbn in *; discriminate. }
  unfold main in H. fold a in H.
  destruct (negb (no_patches a)).
  - destruct (Path_exists (machine w) patches_dir) as [e' | [|]].
    + discriminate.
    + exact (Hgen (machine w) _ _ eq_refl eq_refl H).
    + destruct (fetch w) as [| | tree]; try discriminate.
      exact (Hgen (with_fs (machine w) tree) _ _ eq_refl eq_refl H).
  - exact (Hgen (machine w) _ _ eq_refl eq_refl H).
Qed.

(** X13 at the sample world, with the cache enabled. *)
Lemma main_plan_tools_sample :
  ended (main cached_namespace sample_world)
  = Wrote (fst (ninja (self (snd (try_get_tools (machine sample_world)
                                    {| self := Args_init cached_namespace;
                                       stdout := [] |})))
                  sample_env))
      None
  /\ variable_values
       (fst (ninja (self (snd (try_get_tools (machine sample_world)
                                 {| self := Args_init cached_namespace;
                                    stdout := [] |})))
               sample_env))
       "cc"
     = [Some "ccache gcc"].
Proof.
  assert (H : ended (main cached_namespace sample_world)
              = Wrote (fst (ninja (self (snd (try_get_tools (machine sample_world)
                                                {| self := Args_init cached_namespace;
                                                   stdout := [] |})))
                              sample_env))
                  None)
    by (vm_compute; reflexivity).
  split; [exact H |].
  destruct (main_plan_tools cached_namespace sample_world _ H) as [E _].
  rewrite E. reflexivity.
Defined.

(** ** Rebinding of the directory variables, and cut-short runs *)

(** X14: a completed run binds [gcc_dir] twice, to the source directory
    first and to the build directory later, and writes every relocation
    statement in between: the relocations move the libraries into the
    gcc source tree, and the gcc configure statement comes after the
    second binding, like the [binutils_dir] and [musl_dir] pairs. *)
Theorem gcc_dir_rebinding (a : Args) (env : Env) :
  snd (ninja a env) = None ->
  let g := fst (ninja a env) in
  variable_values g "gcc_dir"
  = [Some "$build_dir/gcc-$gcc_version"; Some "$build_dir/gcc-build"]
  /\ variable_values g "binutils_dir"
     = [Some "$build_dir/binutils-$binutils_version"; Some "$build_dir/binutils-build"]
  /\ variable_values g "musl_dir"
     = [Some "$build_dir/musl-$musl_version"; Some "$build_dir/musl-build"]
  /\ Forall (fun out =>
               binding_at "gcc_dir" g out
               = [Some (Some "$build_dir/gcc-$gcc_version")])
            ("$build_targets_dir/extract-gcc" :: build_targets_move a)
  /\ binding_at "gcc_dir" g "$build_targets_dir/configure-gcc"
     = [Some (Some "$build_dir/gcc-build")].
Proof.
  intros H g. subst g. rewrite (ninja_completed _ _ H).
  unfold binding_at.
  plan_cases a;
    match goal with
    | |- context [bindings_in_effect ?k ?c ?g] =>
        let v := eval vm_compute in (bindings_in_effect k c g) in
        replace (bindings_in_effect k c g) with v by (vm_compute; reflexivity)
    end;
    (split; [vm_compute; reflexivity |]);
    (split; [vm_compute; reflexivity |]);
    (split; [vm_compute; reflexivity |]);
    (split; [| reflexivity]);
    match goal with
    | |- Forall _ ?l => let l' := eval vm_compute in l in change l with l'
    end;
    repeat (constructor; [reflexivity |]); constructor.
Qed.

(** X14 at the sample run. *)
Lemma gcc_dir_rebinding_sample :
  binding_at "gcc_dir" (fst (ninja sample_args sample_env))
    "$build_targets_dir/move-gmp"
  = [Some (Some "$build_dir/gcc-$gcc_version")].
Proof.
  assert (H : snd (ninja sample_args sample_env) = None) by (vm_compute; reflexivity).
  destruct (gcc_dir_rebinding sample_args sample_env H) as (_ & _ & _ & F & _).
  apply Forall_inv_tail, Forall_inv in F. exact F.
Defined.

Section CutShort.

Variables (a : Args) (env : Env).



End CutShort.


